(** * simple_sams_api: a shallow embedding of [simple_sams_api/base.py]

    The module is a thin client for the SAMS service together with three
    helpers working on phenopackets, which are JSON documents held as Python
    dictionaries.  The embedding keeps the dynamic shape of the data: a
    phenopacket is a dictionary of JSON values, lookups can raise, and the
    onset filter writes to the dictionary it was handed. *)

From Stdlib Require Import List NArith ZArith Bool Ascii String Lia DecimalString.
From Stdlib Require Import Permutation.
Import ListNotations.

Set Implicit Arguments.

(** ** The fragment of Python the module relies on *)

(** A Python [str] is a sequence of Unicode code points. *)
Definition str := list N.

(** String literals of the source (all of them ASCII). *)
Definition lit (s : string) : str := map N_of_ascii (list_ascii_of_string s).

Fixpoint str_eqb (a b : str) : bool :=
  match a, b with
  | [], [] => true
  | x :: a', y :: b' => N.eqb x y && str_eqb a' b'
  | _, _ => false
  end.

(** [a < b] on [str]: code point by code point, a proper prefix first. *)
Fixpoint str_ltb (a b : str) : bool :=
  match a, b with
  | _, [] => false
  | [], _ :: _ => true
  | x :: a', y :: b' =>
      if N.ltb x y then true else if N.ltb y x then false else str_ltb a' b'
  end.

Definition str_leb (a b : str) : bool := negb (str_ltb b a).

(** JSON documents as [json.loads] builds them, floating point numbers
    left out. A [dict] keeps its keys in insertion order. *)
#[warnings="-register-all"]
Inductive value : Type :=
| VNone
| VBool (b : bool)
| VInt (z : Z)
| VStr (s : str)
| VList (l : list value)
| VDict (d : list (str * value)).

Definition dict := list (str * value).

Inductive exn : Type :=
| KeyError (key : str)
| TypeError
| ValueError
| AttributeError
| RuntimeError (msg : str)
| HTTPError (status : N)
| OSError
| ConnectionError.

Inductive outcome (A : Type) : Type :=
| Return (a : A)
| Raise (e : exn).
Arguments Return {A} a.
Arguments Raise {A} e.

Definition obind {A B} (m : outcome A) (k : A -> outcome B) : outcome B :=
  match m with
  | Return a => k a
  | Raise e => Raise e
  end.

Declare Scope py_scope.
Delimit Scope py_scope with py.
Open Scope py_scope.

Notation "x <- m ;; k" := (obind m (fun x => k))
  (at level 61, m at next level, right associativity) : py_scope.

(** Statements that read or write the objects a caller can see run in a
    state-and-exception monad over a state [S]. *)
Definition M (S A : Type) : Type := S -> outcome A * S.

Definition ret {S A} (a : A) : M S A := fun s => (Return a, s).
Definition raise {S A} (e : exn) : M S A := fun s => (Raise e, s).
Definition lift {S A} (o : outcome A) : M S A := fun s => (o, s).
Definition bind {S A B} (m : M S A) (k : A -> M S B) : M S B :=
  fun s => match m s with
           | (Return a, s') => k a s'
           | (Raise e, s') => (Raise e, s')
           end.

Notation "x <~ m ;; k" := (bind m (fun x => k))
  (at level 61, m at next level, right associativity) : py_scope.
Notation "m ;;; k" := (bind m (fun _ => k))
  (at level 61, right associativity) : py_scope.

(** *** Dictionaries *)

Fixpoint dict_lookup (k : str) (d : dict) : option value :=
  match d with
  | [] => None
  | (k', v) :: rest => if str_eqb k k' then Some v else dict_lookup k rest
  end.

(** [k in d] *)
Definition dict_contains (k : str) (d : dict) : bool :=
  match dict_lookup k d with Some _ => true | None => false end.

(** [d.get(k, default)] *)
Definition dict_get (k : str) (default : value) (d : dict) : value :=
  match dict_lookup k d with Some v => v | None => default end.

(** [d[k] = v]: an existing key keeps its place, a new one goes last. *)
Fixpoint dict_set (k : str) (v : value) (d : dict) : dict :=
  match d with
  | [] => [(k, v)]
  | (k', v') :: rest =>
      if str_eqb k k' then (k', v) :: rest else (k', v') :: dict_set k v rest
  end.

(** *** Operations on arbitrary values *)

(** [v[k]] with a string subscript. *)
Definition getitem (v : value) (k : str) : outcome value :=
  match v with
  | VDict d => match dict_lookup k d with
               | Some x => Return x
               | None => Raise (KeyError k)
               end
  | _ => Raise TypeError
  end.

(** [v.get(k, default)]: only dictionaries have the method. *)
Definition py_get (v : value) (k : str) (default : value) : outcome value :=
  match v with
  | VDict d => Return (dict_get k default d)
  | _ => Raise AttributeError
  end.

(** What [for x in v] visits. *)
Definition py_iter (v : value) : outcome (list value) :=
  match v with
  | VList l => Return l
  | VDict d => Return (map (fun kv => VStr (fst kv)) d)
  | VStr s => Return (map (fun c => VStr [c]) s)
  | _ => Raise TypeError
  end.

(** Truth value of [v] in a condition. *)
Definition truthy (v : value) : bool :=
  match v with
  | VNone => false
  | VBool b => b
  | VInt z => negb (Z.eqb z 0)
  | VStr s => match s with [] => false | _ => true end
  | VList l => match l with [] => false | _ => true end
  | VDict d => match d with [] => false | _ => true end
  end.

(** [a == b] *)
Fixpoint py_eq (a b : value) {struct a} : bool :=
  match a, b with
  | VNone, VNone => true
  | VBool x, VBool y => Bool.eqb x y
  | VBool x, VInt z => Z.eqb (Z.b2z x) z
  | VInt z, VBool y => Z.eqb z (Z.b2z y)
  | VInt x, VInt y => Z.eqb x y
  | VStr s, VStr t => str_eqb s t
  | VList l1, VList l2 =>
      (fix go (l1 l2 : list value) : bool :=
         match l1, l2 with
         | [], [] => true
         | x :: xs, y :: ys => py_eq x y && go xs ys
         | _, _ => false
         end) l1 l2
  | VDict d1, VDict d2 =>
      Nat.eqb (List.length d1) (List.length d2) &&
      (fix go (d : list (str * value)) : bool :=
         match d with
         | [] => true
         | (k, v) :: rest =>
             match dict_lookup k d2 with
             | Some v' => py_eq v v'
             | None => false
             end && go rest
         end) d1
  | _, _ => false
  end.

Definition py_ne (a b : value) : bool := negb (py_eq a b).

(** [a < b]: numbers with numbers, strings with strings, lists with lists
    at their first unequal position; anything else is a [TypeError]. *)
Fixpoint py_lt (a b : value) {struct a} : outcome bool :=
  match a, b with
  | VBool x, VBool y => Return (Z.ltb (Z.b2z x) (Z.b2z y))
  | VBool x, VInt z => Return (Z.ltb (Z.b2z x) z)
  | VInt z, VBool y => Return (Z.ltb z (Z.b2z y))
  | VInt x, VInt y => Return (Z.ltb x y)
  | VStr s, VStr t => Return (str_ltb s t)
  | VList l1, VList l2 =>
      (fix go (l1 l2 : list value) : outcome bool :=
         match l1, l2 with
         | [], [] => Return false
         | [], _ :: _ => Return true
         | _ :: _, [] => Return false
         | x :: xs, y :: ys => if py_eq x y then go xs ys else py_lt x y
         end) l1 l2
  | _, _ => Raise TypeError
  end.

(** [a > b] *)
Fixpoint py_gt (a b : value) {struct a} : outcome bool :=
  match a, b with
  | VBool x, VBool y => Return (Z.ltb (Z.b2z y) (Z.b2z x))
  | VBool x, VInt z => Return (Z.ltb z (Z.b2z x))
  | VInt z, VBool y => Return (Z.ltb (Z.b2z y) z)
  | VInt x, VInt y => Return (Z.ltb y x)
  | VStr s, VStr t => Return (str_ltb t s)
  | VList l1, VList l2 =>
      (fix go (l1 l2 : list value) : outcome bool :=
         match l1, l2 with
         | [], [] => Return false
         | [], _ :: _ => Return false
         | _ :: _, [] => Return true
         | x :: xs, y :: ys => if py_eq x y then go xs ys else py_gt x y
         end) l1 l2
  | _, _ => Raise TypeError
  end.

(** [min(key(x) for x in items)] and [max(...)]: the generator produces one
    item at a time, so the key of an item is computed, and may raise, right
    before that item is compared with the best one so far. An empty
    iteration is a [ValueError]. *)
Fixpoint best_loop (better : value -> value -> outcome bool)
         (key : value -> outcome value) (cur : value) (items : list value)
  : outcome value :=
  match items with
  | [] => Return cur
  | x :: rest =>
      item <- key x ;;
      c <- better item cur ;;
      best_loop better key (if c then item else cur) rest
  end.

Definition best_of (better : value -> value -> outcome bool)
           (key : value -> outcome value) (items : list value) : outcome value :=
  match items with
  | [] => Raise ValueError
  | x :: rest => first <- key x ;; best_loop better key first rest
  end.

Definition py_min := best_of py_lt.
Definition py_max := best_of py_gt.

(** [sep.join(parts)] *)
Fixpoint join (sep : str) (parts : list str) : str :=
  match parts with
  | [] => []
  | [p] => p
  | p :: rest => p ++ sep ++ join sep rest
  end.

(** [str.isspace] on one code point. *)
Definition isspace (c : N) : bool :=
  (((9 <=? c) && (c <=? 13)) || ((28 <=? c) && (c <=? 32)) ||
   (c =? 133) || (c =? 160) || (c =? 5760) ||
   ((8192 <=? c) && (c <=? 8202)) || (c =? 8232) || (c =? 8233) ||
   (c =? 8239) || (c =? 8287) || (c =? 12288))%N.

Fixpoint lstrip (s : str) : str :=
  match s with
  | [] => []
  | c :: rest => if isspace c then lstrip rest else s
  end.

Definition rstrip (s : str) : str := rev (lstrip (rev s)).

(** [s.strip()] *)
Definition strip (s : str) : str := rstrip (lstrip s).

(** Reading a text file: line endings [\r\n] and [\r] arrive as [\n], and
    [readlines] cuts the text after every [\n]. *)
Fixpoint translate_newlines (s : str) : str :=
  match s with
  | [] => []
  | c :: rest =>
      if N.eqb c 13 then
        10%N :: match rest with
                | [] => []
                | d :: rest' =>
                    if N.eqb d 10 then translate_newlines rest'
                    else translate_newlines rest
                end
      else c :: translate_newlines rest
  end.

Fixpoint split_lines (line : str) (s : str) : list str :=
  match s with
  | [] => match line with [] => [] | _ => [line] end
  | c :: rest =>
      if N.eqb c 10 then (line ++ [c]) :: split_lines [] rest
      else split_lines (line ++ [c]) rest
  end.

Definition readlines (content : str) : list str :=
  split_lines [] (translate_newlines content).

(** ** The objects a caller shares with the helpers

    A phenopacket is handed over by reference. The heap maps a reference to
    the dictionary it denotes; the log collects what [logger.warning]
    emits. *)
Definition loc := nat.

Record world : Type := World {
  heap : loc -> dict;
  warnings : list str
}.

(** The dictionary behind a reference. *)
Definition deref (p : loc) : M world dict :=
  fun w => (Return (heap w p), w).

(** [p[k] = v] *)
Definition setitem (p : loc) (k : str) (v : value) : M world unit :=
  fun w =>
    (Return tt,
     {| heap := fun l => if Nat.eqb l p then dict_set k v (heap w l) else heap w l;
        warnings := warnings w |}).

(** [logger.warning(msg)] *)
Definition logger_warning (msg : str) : M world unit :=
  fun w => (Return tt, {| heap := heap w; warnings := warnings w ++ [msg] |}).

(** ** Constants of the module *)

Definition SAMS_URL : str := lit "https://www.genecascade.org/sams-cgi".
Definition LOGIN_URL : str := SAMS_URL ++ lit "/login.cgi".
Definition EXPORT_PHENOPACKETS_URL : str :=
  SAMS_URL ++ lit "/ExportPhenopacket.cgi?export_all=1".
Definition EXPORT_PHENOPACKET_BY_ID_URL (patient_id : str) : str :=
  SAMS_URL ++ lit "/export_phenopacket.cgi?external_id=" ++ patient_id.

Definition k_subject := lit "subject".
Definition k_id := lit "id".
Definition k_label := lit "label".
Definition k_type := lit "type".
Definition k_term := lit "term".
Definition k_excluded := lit "excluded".
Definition k_onset := lit "onset".
Definition k_timestamp := lit "timestamp".
Definition k_phenotypicFeatures := lit "phenotypicFeatures".
Definition k_diseases := lit "diseases".
Definition earliest := lit "earliest".
Definition latest := lit "latest".
Definition separator := lit "; ".
Definition excluded_suffix := lit " (excluded)".

(** ** The extractors *)

Section Extractors.

(** How an f-string renders a list or a dictionary is the interpreter's
    [repr], which the module does not define. *)
Variable container_repr : value -> str.

(** [f"{v}"] *)
Definition format_value (v : value) : str :=
  match v with
  | VStr s => s
  | VNone => lit "None"
  | VBool true => lit "True"
  | VBool false => lit "False"
  | VInt z => lit (NilZero.string_of_int (Z.to_int z))
  | VList _ | VDict _ => container_repr v
  end.

(** [f"{x[field]['id']} - {x[field]['label']}"] *)
Definition term_string (field : str) (x : value) : outcome str :=
  t <- getitem x field ;;
  i <- getitem t k_id ;;
  t' <- getitem x field ;;
  l <- getitem t' k_label ;;
  Return (format_value i ++ lit " - " ++ format_value l).

(** The body of the [for] loop both extractors run, [strings] being the
    list the loop appends to. *)
Fixpoint term_loop (field : str) (ignore_excluded : bool)
         (items : list value) (strings : list str) : outcome (list str) :=
  match items with
  | [] => Return strings
  | x :: rest =>
      s <- term_string field x ;;
      e <- py_get x k_excluded (VInt 0) ;;
      if truthy e then
        if ignore_excluded then term_loop field ignore_excluded rest strings
        else term_loop field ignore_excluded rest
                       (strings ++ [s ++ excluded_suffix])
      else term_loop field ignore_excluded rest (strings ++ [s])
  end.

Definition extract_HPO_terms_from_phenopacket
           (phenopacket : loc) (ignore_excluded : bool) : M world str :=
  d <~ deref phenopacket ;;
  if negb (dict_contains k_phenotypicFeatures d) then
    sams_entry <~ lift (s <- getitem (VDict d) k_subject ;; getitem s k_id) ;;
    logger_warning (lit "SAMS: No phenotypicFeatures found for "
                        ++ format_value sams_entry) ;;;
    ret []
  else
    phenotypes <~ lift (getitem (VDict d) k_phenotypicFeatures) ;;
    pheno_strings <~ lift (features <- py_iter phenotypes ;;
                           term_loop k_type ignore_excluded features []) ;;
    ret (join separator pheno_strings).

Definition extract_disease_terms_from_phenopacket
           (phenopacket : loc) (ignore_excluded : bool) : M world str :=
  d <~ deref phenopacket ;;
  if negb (dict_contains k_diseases d) then
    sams_entry <~ lift (s <- getitem (VDict d) k_subject ;; getitem s k_id) ;;
    logger_warning (lit "SAMS: No diseases found for "
                        ++ format_value sams_entry) ;;;
    ret []
  else
    diseases <~ lift (getitem (VDict d) k_diseases) ;;
    disease_strings <~ lift (items <- py_iter diseases ;;
                             term_loop k_term ignore_excluded items []) ;;
    ret (join separator disease_strings).

End Extractors.

(** ** The onset filter *)

(** [x["onset"]["timestamp"]] *)
Definition onset_timestamp_of (x : value) : outcome value :=
  o <- getitem x k_onset ;; getitem o k_timestamp.

(** The inner function; it reads the phenopacket of the enclosing call. *)
Definition compute_onset_timestamp (phenopacket : loc) (onset : str)
  : M world value :=
  if str_eqb onset earliest then
    d <~ deref phenopacket ;;
    lift (features <- py_iter (dict_get k_phenotypicFeatures (VList []) d) ;;
          py_min onset_timestamp_of features)
  else if str_eqb onset latest then
    d <~ deref phenopacket ;;
    lift (features <- py_iter (dict_get k_phenotypicFeatures (VList []) d) ;;
          py_max onset_timestamp_of features)
  else ret (VStr onset).

(** One of the two filtering loops, [kept] being the list it appends to. *)
Fixpoint onset_loop (onset_timestamp : value) (items kept : list value)
  : outcome (list value) :=
  match items with
  | [] => Return kept
  | x :: rest =>
      t <- onset_timestamp_of x ;;
      if py_eq t onset_timestamp
      then onset_loop onset_timestamp rest (kept ++ [x])
      else onset_loop onset_timestamp rest kept
  end.

Definition filter_phenopacket_by_onset
           (phenopacket : loc) (input_onset_timestamp : str) : M world loc :=
  onset_timestamp <~ compute_onset_timestamp phenopacket input_onset_timestamp ;;
  d <~ deref phenopacket ;;
  filered_phenotypes <~
    lift (features <- py_iter (dict_get k_phenotypicFeatures (VList []) d) ;;
          onset_loop onset_timestamp features []) ;;
  d' <~ deref phenopacket ;;
  filtered_diseases <~
    lift (diseases <- py_iter (dict_get k_diseases (VList []) d') ;;
          onset_loop onset_timestamp diseases []) ;;
  setitem phenopacket k_phenotypicFeatures (VList filered_phenotypes) ;;;
  setitem phenopacket k_diseases (VList filtered_diseases) ;;;
  ret phenopacket.

(** ** The client *)

Record Response : Type := {
  status_code : N;
  json : outcome value   (* what [resp.json()] gives *)
}.

(** A [requests.Session], as far as the module looks into it. *)
Record Session : Type := { cookies : list (str * str) }.

Record SAMSapi : Type := {
  session : Session;
  phenopackets : value
}.

(** [resp.raise_for_status()] *)
Definition raise_for_status {S} (resp : Response) : M S unit :=
  if (N.leb 400 (status_code resp) && N.ltb (status_code resp) 600)%bool
  then raise (HTTPError (status_code resp))
  else ret tt.

(** Runs a statement on [self.session]. *)
Definition on_session {A} (m : M Session A) : M SAMSapi A :=
  fun self =>
    let (r, s') := m (session self) in
    (r, {| session := s'; phenopackets := phenopackets self |}).

Section Client.

(** The network and the file system are the environment of the client:
    what a request through the session answers, and what reading the file
    at a path in text mode delivers. *)
Variable session_post : str -> list (str * str) -> M Session Response.
Variable session_get : str -> M Session Response.
Variable file_content : str -> outcome str.


Definition _login (username password : str) : M SAMSapi unit :=
  resp <~ on_session (session_post LOGIN_URL
                        [(lit "email", username); (lit "password", password)]) ;;
  raise_for_status resp.

(** [username, password = [l.strip() for l in f.readlines()]]: unpacking
    into two names raises [ValueError] unless there are exactly two. *)
Definition unpack2 (xs : list str) : outcome (str * str) :=
  match xs with
  | [a; b] => Return (a, b)
  | _ => Raise ValueError
  end.

Definition login_with_credentials_file (credentials_file : str)
  : M SAMSapi unit :=
  up <~ lift (content <- file_content credentials_file ;;
              unpack2 (map strip (readlines content))) ;;
  _login (fst up) (snd up).

Definition login_with_username (username password : str) : M SAMSapi unit :=
  _login username password.

Definition get_phenopackets : M SAMSapi value :=
  resp <~ on_session (session_get EXPORT_PHENOPACKETS_URL) ;;
  raise_for_status resp ;;;
  all_data <~ lift (json resp) ;;
  ret all_data.

Definition get_phenopacket (patient_id : str) : M SAMSapi value :=
  resp <~ on_session (session_get (EXPORT_PHENOPACKET_BY_ID_URL patient_id)) ;;
  raise_for_status resp ;;;
  patient_data <~ lift (json resp) ;;
  subject_id <~ lift (s <- getitem patient_data k_subject ;; getitem s k_id) ;;
  if py_ne subject_id (VStr patient_id) then
    raise (RuntimeError
             (lit "Failed to obtain phenopacket for external id " ++ patient_id))
  else ret patient_data.

End Client.

(** ** Reading a record the way the specification describes it *)

(** The value found by following [path] through nested dictionaries. *)
Fixpoint at_path (x : value) (path : list str) : option value :=
  match path with
  | [] => Some x
  | k :: rest =>
      match x with
      | VDict d => match dict_lookup k d with
                   | Some y => at_path y rest
                   | None => None
                   end
      | _ => None
      end
  end.

(** The entries of an optional list field: a missing key stands for the
    empty sequence. *)
Inductive has_entries (k : str) (d : dict) : list value -> Prop :=
| entries_absent : dict_lookup k d = None -> has_entries k d []
| entries_present xs : dict_lookup k d = Some (VList xs) -> has_entries k d xs.

(** [excluded] is truthy; a missing flag counts as falsy. *)
Definition flagged (x : value) : bool :=
  match at_path x [k_excluded] with
  | Some e => truthy e
  | None => false
  end.

(** An entry whose [onset.timestamp] is there, and one whose timestamp is a
    string. *)
Definition timed (x : value) : Prop :=
  exists t, at_path x [k_onset; k_timestamp] = Some t.

Definition str_timestamp (x : value) : option str :=
  match at_path x [k_onset; k_timestamp] with
  | Some (VStr s) => Some s
  | _ => None
  end.

Definition str_timed (x : value) : Prop :=
  exists s, at_path x [k_onset; k_timestamp] = Some (VStr s).

(** [onset.timestamp] of [x] equals [target]. *)
Definition onset_is (target : value) (x : value) : bool :=
  match at_path x [k_onset; k_timestamp] with
  | Some t => py_eq t target
  | None => false
  end.

(** The string timestamps of a sequence of entries. *)
Fixpoint timestamps (xs : list value) : list str :=
  match xs with
  | [] => []
  | x :: rest =>
      match str_timestamp x with
      | Some s => s :: timestamps rest
      | None => timestamps rest
      end
  end.

(** The better of the best string so far and the next one, for a strict
    order [better]. *)
Definition pick (better : str -> str -> bool) (cur t : str) : str :=
  if better t cur then t else cur.

(** An entry that has both [field.id] and [field.label]. *)
Definition described (field : str) (x : value) : Prop :=
  (exists i, at_path x [field; k_id] = Some i)
  /\ (exists l, at_path x [field; k_label] = Some l).

Section Rendering.

Variable container_repr : value -> str.

(** ["{field.id} - {field.label}"] *)
Definition term_text (field : str) (x : value) : str :=
  match at_path x [field; k_id], at_path x [field; k_label] with
  | Some i, Some l =>
      format_value container_repr i ++ lit " - " ++ format_value container_repr l
  | _, _ => []
  end.

(** The string an entry contributes when it is not skipped. *)
Definition rendered (field : str) (x : value) : str :=
  if flagged x then term_text field x ++ excluded_suffix
  else term_text field x.

End Rendering.

(** The entries that are not skipped. *)
Definition retained (ignore_excluded : bool) (xs : list value) : list value :=
  filter (fun x => negb (ignore_excluded && flagged x)) xs.

(** Strings put one after the other, each but the first preceded by the
    separator. *)
Definition joined (parts : list str) : str :=
  match parts with
  | [] => []
  | s :: rest => s ++ List.concat (map (fun t => separator ++ t) rest)
  end.

(** The segments of an output string: [s.split("; ")]. *)
Fixpoint split_from (current : str) (s : str) : list str :=
  match s with
  | [] => [current]
  | c :: rest =>
      match rest with
      | d :: rest' =>
          if N.eqb c 59 && N.eqb d 32 then current :: split_from [] rest'
          else split_from (current ++ [c]) rest
      | [] => [current ++ [c]]
      end
  end.

Definition split_on_separator (s : str) : list str := split_from [] s.

(** [s.endswith(suffix)] *)
Definition ends_with (suffix s : str) : bool :=
  str_eqb (skipn (List.length s - List.length suffix) s) suffix.

(** An output string with every segment that ends in [" (excluded)"]
    taken out, the remaining segments joined again. *)
Definition drop_excluded_segments (s : str) : str :=
  join separator
       (filter (fun seg => negb (ends_with excluded_suffix seg))
               (split_on_separator s)).

(** An entry whose string is one segment of the output, and carries the
    suffix only if the entry is flagged. *)
Definition unambiguous (text : str) (is_flagged : bool) : Prop :=
  split_on_separator text = [text]
  /\ (is_flagged = false -> ends_with excluded_suffix text = false).

(** A feature that, if the extractor can format it, gives a string that is
    one segment and is tagged only if the feature is flagged. *)
Definition plain_feature (container_repr : value -> str) (x : value) : Prop :=
  described k_type x ->
  unambiguous (rendered container_repr k_type x) (flagged x).

Definition omap {A B} (f : A -> B) (o : outcome A) : outcome B :=
  match o with
  | Return a => Return (f a)
  | Raise e => Raise e
  end.

(** The selector is one of the two sentinel tokens. *)
Definition is_sentinel (selector : str) : bool :=
  str_eqb selector earliest || str_eqb selector latest.

(** ** Sample records, after the fixtures of the test suite *)

Definition text (s : string) : value := VStr (lit s).

Definition sample_feature (onset id label : string) : value :=
  VDict [(k_onset, VDict [(k_timestamp, text onset)]);
         (k_type, VDict [(k_id, text id); (k_label, text label)])].

Definition sample_disease (onset id label : string) : value :=
  VDict [(k_onset, VDict [(k_timestamp, text onset)]);
         (k_term, VDict [(k_id, text id); (k_label, text label)])].

Definition sample_features : list value :=
  [sample_feature "2020-01-01" "HP:1" "A"; sample_feature "2021-01-01" "HP:2" "B"].

Definition sample_diseases : list value :=
  [sample_disease "2020-01-01" "OMIM:1" "D1";
   sample_disease "2021-01-01" "OMIM:2" "D2"].

Definition sample_phenopacket : dict :=
  [(k_phenotypicFeatures, VList sample_features);
   (k_diseases, VList sample_diseases)].

(** A record with features only, and a subject. *)
Definition sample_without_diseases : dict :=
  [(k_subject, VDict [(k_id, text "TREX1")]);
   (k_phenotypicFeatures, VList sample_features)].

Definition world_of (d : dict) : world :=
  {| heap := fun _ => d; warnings := [] |}.

(** The record of the extractor tests: the second feature is excluded. *)
Definition sample_with_excluded : dict :=
  [(k_subject, VDict [(k_id, text "p1")]);
   (k_phenotypicFeatures,
    VList [VDict [(k_type, VDict [(k_id, text "HP:0000001");
                                  (k_label, text "Phenotype 1")])];
           VDict [(k_type, VDict [(k_id, text "HP:0000002");
                                  (k_label, text "Phenotype 2")]);
                  (k_excluded, VInt 1)]])].

(** A record without features. *)
Definition sample_without_features : dict :=
  [(k_subject, VDict [(k_id, text "p2")])].

(** A record whose only feature is not excluded, with a label that ends
    like the tag of an excluded one. *)
Definition sample_mislabelled : dict :=
  [(k_subject, VDict [(k_id, text "p3")]);
   (k_phenotypicFeatures,
    VList [VDict [(k_type, VDict [(k_id, text "HP:1");
                                  (k_label, text "A (excluded)")])]])].

Definition no_repr : value -> str := fun _ => [].

(** Credentials files. *)
Definition two_lines : str :=
  lit "user" ++ [10%N] ++ lit " pass " ++ [10%N].

Definition three_lines : str :=
  lit "user" ++ [10%N] ++ lit "pass" ++ [10%N] ++ lit "extra" ++ [10%N].

(** A server that accepts every request and answers [record]. *)
Definition answering (record : value) : M Session Response :=
  fun s => (Return {| status_code := 200; json := Return record |}, s).

Definition anonymous : SAMSapi :=
  {| session := {| cookies := [] |}; phenopackets := VNone |}.

(** ** Further vocabulary for the properties of the module *)

(** A value that [for x in v] cannot iterate: [None], a boolean, a number. *)
Definition not_iterable (v : value) : bool :=
  match v with
  | VNone | VBool _ | VInt _ => true
  | _ => false
  end.

(** The status of a response makes [raise_for_status] raise. *)
Definition error_status (resp : Response) : bool :=
  N.leb 400 (status_code resp) && N.ltb (status_code resp) 600.

(** A string without a line feed or a carriage return. *)
Definition single_line (s : str) : bool :=
  forallb (fun c => negb (N.eqb c 10) && negb (N.eqb c 13)) s.

(** The text of a credentials file: user name and password, each followed
    by the line ending [eol]. *)
Definition credentials_text (eol username password : str) : str :=
  username ++ eol ++ password ++ eol.

(** All entries of a sequence have the string timestamp [t]. *)
Definition all_at (t : str) (xs : list value) : Prop :=
  forall x, In x xs -> str_timestamp x = Some t.


(** A record whose [phenotypicFeatures] is JSON [null]. *)
Definition sample_null_features : dict :=
  [(k_subject, VDict [(k_id, text "p4")]); (k_phenotypicFeatures, VNone)].

(** The record of the disease extractor tests. *)
Definition sample_with_excluded_disease : dict :=
  [(k_subject, VDict [(k_id, text "p1")]);
   (k_diseases,
    VList [VDict [(k_term, VDict [(k_id, text "OMIM:1");
                                  (k_label, text "Disease 1")])];
           VDict [(k_term, VDict [(k_id, text "OMIM:2");
                                  (k_label, text "Disease 2")]);
                  (k_excluded, VInt 1)]])].

(** ** Basic facts about the Python fragment *)

Lemma str_eqb_refl (a : str) : str_eqb a a = true.
Proof.
  induction a as [|x a IH]; simpl; [reflexivity|].
  now rewrite N.eqb_refl, IH.
Qed.

Lemma str_eqb_eq (a b : str) : str_eqb a b = true <-> a = b.
Proof.
  split.
  - revert b; induction a as [|x a IH]; intros [|y b] H; simpl in H;
      try discriminate; [reflexivity|].
    apply andb_true_iff in H as [Hx Hr].
    apply N.eqb_eq in Hx. f_equal; [exact Hx | now apply IH].
  - intros ->. apply str_eqb_refl.
Qed.

Lemma str_eqb_neq (a b : str) : str_eqb a b = false <-> a <> b.
Proof.
  rewrite <- str_eqb_eq. destruct (str_eqb a b); split; congruence.
Qed.

Lemma dict_lookup_set_same (k : str) (v : value) (d : dict) :
  dict_lookup k (dict_set k v d) = Some v.
Proof.
  induction d as [|[k' v'] d IH]; simpl.
  - now rewrite str_eqb_refl.
  - destruct (str_eqb k k') eqn:E; simpl; rewrite E; [reflexivity | exact IH].
Qed.

Lemma dict_lookup_set_other (k k0 : str) (v : value) (d : dict) :
  k0 <> k -> dict_lookup k0 (dict_set k v d) = dict_lookup k0 d.
Proof.
  intros Hne. induction d as [|[k' v'] d IH]; simpl.
  - apply str_eqb_neq in Hne. now rewrite Hne.
  - destruct (str_eqb k k') eqn:E; simpl.
    + apply str_eqb_eq in E. subst k'.
      apply str_eqb_neq in Hne. now rewrite Hne.
    + now rewrite IH.
Qed.

Lemma dict_set_known (k : str) (v : value) (d : dict) :
  dict_lookup k d = Some v -> dict_set k v d = d.
Proof.
  induction d as [|[k' v'] d IH]; simpl; [discriminate|].
  destruct (str_eqb k k') eqn:E.
  - now intros [= ->].
  - intros H. now rewrite IH.
Qed.

Lemma py_eq_str (v : value) (s : str) : py_eq v (VStr s) = true <-> v = VStr s.
Proof.
  destruct v; simpl; try (split; [discriminate | intros [=]]).
  rewrite str_eqb_eq. split; [now intros -> | now intros [= ->]].
Qed.

Lemma features_key_is_not_diseases : k_phenotypicFeatures <> k_diseases.
Proof. discriminate. Qed.

Lemma onset_timestamp_at_path (x t : value) :
  at_path x [k_onset; k_timestamp] = Some t -> onset_timestamp_of x = Return t.
Proof.
  unfold onset_timestamp_of. destruct x; simpl; try discriminate.
  destruct (dict_lookup k_onset d) as [o|]; [|discriminate]. simpl.
  destruct o; simpl; try discriminate.
  destruct (dict_lookup k_timestamp d0); [|discriminate].
  now intros [= ->].
Qed.

Lemma has_entries_iter (k : str) (d : dict) (xs : list value) :
  has_entries k d xs -> py_iter (dict_get k (VList []) d) = Return xs.
Proof.
  unfold dict_get. intros [H | ys H]; now rewrite H.
Qed.

(** ** Lexical order on strings *)

Lemma str_ltb_irrefl (a : str) : str_ltb a a = false.
Proof.
  induction a as [|x a IH]; simpl; [reflexivity|].
  now rewrite N.ltb_irrefl.
Qed.

Lemma str_ltb_trans (a b c : str) :
  str_ltb a b = true -> str_ltb b c = true -> str_ltb a c = true.
Proof.
  revert b c; induction a as [|x a IH]; intros [|y b] [|z c]; simpl;
    try congruence.
  destruct (N.ltb_spec x y), (N.ltb_spec y x), (N.ltb_spec y z),
    (N.ltb_spec z y), (N.ltb_spec x z), (N.ltb_spec z x);
    try congruence; try lia.
  apply IH.
Qed.

Lemma str_ltb_connex (a b : str) :
  str_ltb a b = false -> str_ltb b a = false -> a = b.
Proof.
  revert b; induction a as [|x a IH]; intros [|y b]; simpl; try congruence.
  destruct (N.ltb_spec x y), (N.ltb_spec y x); try congruence; try lia.
  intros H1 H2. assert (x = y) by lia. subst. f_equal. now apply IH.
Qed.

(** ** Selecting the best of a sequence *)

Section BestOf.

Variable better : str -> str -> bool.
Hypothesis better_irrefl : forall a, better a a = false.
Hypothesis better_trans :
  forall a b c, better a b = true -> better b c = true -> better a c = true.

Lemma fold_pick_in (ts : list str) (cur : str) :
  In (fold_left (pick better) ts cur) (cur :: ts).
Proof.
  revert cur; induction ts as [|t ts IH]; intros cur; simpl; [now left|].
  destruct (IH (pick better cur t)) as [H | H].
  - unfold pick in H |- *.
    destruct (better t cur); auto.
  - auto.
Qed.

Lemma fold_pick_unbeaten (ts : list str) (cur : str) (seen : list str) :
  (forall t, In t seen -> better t cur = false) ->
  better cur cur = false ->
  forall t, In t (seen ++ ts) -> better t (fold_left (pick better) ts cur) = false.
Proof.
  revert cur seen; induction ts as [|x ts IH]; intros cur seen Hseen _ t Hin.
  - rewrite app_nil_r in Hin. now apply Hseen.
  - simpl. apply (IH (pick better cur x) (seen ++ [x])).
    + intros u Hu. apply in_app_or in Hu as [Hu | [<- | []]]; unfold pick.
      * destruct (better x cur) eqn:E; [|now apply Hseen].
        destruct (better u x) eqn:E'; [|reflexivity].
        rewrite <- (Hseen u Hu). symmetry. now apply better_trans with x.
      * destruct (better x cur) eqn:E; [apply better_irrefl | exact E].
    + apply better_irrefl.
    + now rewrite <- app_assoc.
Qed.

Lemma fold_pick_best (ts : list str) (cur : str) :
  forall t, In t (cur :: ts) -> better t (fold_left (pick better) ts cur) = false.
Proof.
  intros t Hin. apply fold_pick_unbeaten with (seen := [cur]).
  - intros u [<- | []]. apply better_irrefl.
  - apply better_irrefl.
  - exact Hin.
Qed.

End BestOf.

Lemma str_gtb_trans (a b c : str) :
  str_ltb b a = true -> str_ltb c b = true -> str_ltb c a = true.
Proof. intros H1 H2. now apply str_ltb_trans with b. Qed.

(** ** The filtering loops *)

Lemma onset_loop_filter (target : value) (items kept : list value) :
  Forall timed items ->
  onset_loop target items kept = Return (kept ++ filter (onset_is target) items).
Proof.
  intros H; revert kept; induction H as [|x items [t Ht] _ IH]; intros kept.
  - simpl. now rewrite app_nil_r.
  - cbn [onset_loop filter]. rewrite (onset_timestamp_at_path _ Ht).
    cbn [obind]. unfold onset_is at 1. rewrite Ht.
    destruct (py_eq t target); rewrite IH; [|reflexivity].
    now rewrite <- app_assoc.
Qed.

Lemma str_timed_timed (x : value) : str_timed x -> timed x.
Proof. intros [s H]. now exists (VStr s). Qed.

Lemma str_timed_timestamp (x : value) (s : str) :
  at_path x [k_onset; k_timestamp] = Some (VStr s) -> str_timestamp x = Some s.
Proof. unfold str_timestamp. now intros ->. Qed.

Lemma best_loop_strings (better : str -> str -> bool)
      (cmp : value -> value -> outcome bool) (items : list value) (cur : str) :
  (forall s t, cmp (VStr s) (VStr t) = Return (better s t)) ->
  Forall str_timed items ->
  best_loop cmp onset_timestamp_of (VStr cur) items
  = Return (VStr (fold_left (pick better) (timestamps items) cur)).
Proof.
  intros Hcmp H; revert cur; induction H as [|x items [s Hs] _ IH]; intros cur.
  - reflexivity.
  - cbn [best_loop timestamps]. rewrite (onset_timestamp_at_path _ Hs).
    cbn [obind]. rewrite Hcmp. cbn [obind].
    rewrite (str_timed_timestamp _ Hs). cbn [fold_left].
    unfold pick at 2. destruct (better s cur); apply IH.
Qed.

Lemma best_of_strings (better : str -> str -> bool)
      (cmp : value -> value -> outcome bool) (x : value) (items : list value) :
  (forall s t, cmp (VStr s) (VStr t) = Return (better s t)) ->
  (forall a, better a a = false) ->
  (forall a b c, better a b = true -> better b c = true -> better a c = true) ->
  Forall str_timed (x :: items) ->
  exists m, best_of cmp onset_timestamp_of (x :: items) = Return (VStr m)
            /\ In m (timestamps (x :: items))
            /\ forall t, In t (timestamps (x :: items)) -> better t m = false.
Proof.
  intros Hcmp Hirr Htr H. inversion H as [|? ? [s Hs] Hrest]; subst.
  exists (fold_left (pick better) (timestamps items) s).
  cbn [best_of timestamps]. rewrite (onset_timestamp_at_path _ Hs).
  cbn [obind]. rewrite (@best_loop_strings better cmp items s Hcmp Hrest).
  rewrite (str_timed_timestamp _ Hs).
  split; [reflexivity|]. split.
  - apply fold_pick_in.
  - now apply fold_pick_best.
Qed.

Lemma best_of_empty_iff (cmp : value -> value -> outcome bool)
      (key : value -> outcome value) (items : list value) :
  (forall a b, cmp a b <> Raise ValueError) ->
  (forall a, key a <> Raise ValueError) ->
  best_of cmp key items = Raise ValueError <-> items = [].
Proof.
  intros Hcmp Hkey. split; [|now intros ->].
  destruct items as [|x rest]; [reflexivity|]. simpl.
  destruct (key x) as [first|e] eqn:E; simpl.
  - intros H. exfalso. clear E. revert first H.
    induction rest as [|y rest IH]; intros first; simpl; [discriminate|].
    destruct (key y) as [item|e] eqn:E; simpl.
    + destruct (cmp item first) as [c|e] eqn:E'; simpl.
      * apply IH.
      * intros [= ->]. now apply (Hcmp item first).
    + intros [= ->]. now apply (Hkey y).
  - intros [= ->]. now apply (Hkey x) in E.
Qed.

(** Induction on values that reaches into lists and dictionaries. *)
Lemma value_nested_ind (P : value -> Prop) :
  P VNone ->
  (forall b, P (VBool b)) ->
  (forall z, P (VInt z)) ->
  (forall s, P (VStr s)) ->
  (forall l, Forall P l -> P (VList l)) ->
  (forall d, Forall (fun kv => P (snd kv)) d -> P (VDict d)) ->
  forall v, P v.
Proof.
  intros HN HB HI HS HL HD.
  fix IH 1. intros [| b | z | s | l | d].
  - exact HN.
  - apply HB.
  - apply HI.
  - apply HS.
  - apply HL. induction l as [|x l IHl]; constructor; [apply IH | exact IHl].
  - apply HD. induction d as [|[k x] d IHd]; constructor; [apply IH | exact IHd].
Qed.

Lemma py_lt_raises_type_error (a b : value) (e : exn) :
  py_lt a b = Raise e -> e = TypeError.
Proof.
  revert b. induction a as [| | | |l IHl|d _] using value_nested_ind;
    intros c; destruct c as [| | | |l'|]; simpl; try congruence.
  revert l'. induction IHl as [|x l Hx _ IHl]; intros [|y l']; try congruence.
  destruct (py_eq x y); [apply IHl | apply Hx].
Qed.

Lemma py_gt_raises_type_error (a b : value) (e : exn) :
  py_gt a b = Raise e -> e = TypeError.
Proof.
  revert b. induction a as [| | | |l IHl|d _] using value_nested_ind;
    intros c; destruct c as [| | | |l'|]; simpl; try congruence.
  revert l'. induction IHl as [|x l Hx _ IHl]; intros [|y l']; try congruence.
  destruct (py_eq x y); [apply IHl | apply Hx].
Qed.

Lemma onset_timestamp_no_value_error (x : value) :
  onset_timestamp_of x <> Raise ValueError.
Proof.
  unfold onset_timestamp_of.
  destruct x; simpl; try discriminate.
  destruct (dict_lookup k_onset d) as [o|]; simpl; [|discriminate].
  destruct o; simpl; try discriminate.
  destruct (dict_lookup k_timestamp d0); discriminate.
Qed.

(** ** Running the onset filter *)

Lemma compute_onset_timestamp_pure (p : loc) (sel : str) (w : world) :
  snd (compute_onset_timestamp p sel w) = w.
Proof.
  unfold compute_onset_timestamp.
  destruct (str_eqb sel earliest); [|destruct (str_eqb sel latest)];
    unfold bind, deref, lift, ret; cbn [fst snd];
    try match goal with |- context [obind ?a ?b] => destruct (obind a b) end;
    reflexivity.
Qed.

Lemma compute_literal (p : loc) (sel : str) (w : world) :
  is_sentinel sel = false ->
  compute_onset_timestamp p sel w = (Return (VStr sel), w).
Proof.
  unfold is_sentinel, compute_onset_timestamp. intros H.
  apply orb_false_iff in H as [-> ->]. reflexivity.
Qed.

Lemma compute_earliest (p : loc) (w : world) :
  compute_onset_timestamp p earliest w
  = (features <- py_iter (dict_get k_phenotypicFeatures (VList []) (heap w p)) ;;
     py_min onset_timestamp_of features, w).
Proof. reflexivity. Qed.

Lemma compute_latest (p : loc) (w : world) :
  compute_onset_timestamp p latest w
  = (features <- py_iter (dict_get k_phenotypicFeatures (VList []) (heap w p)) ;;
     py_max onset_timestamp_of features, w).
Proof. reflexivity. Qed.

Lemma is_sentinel_cases (sel : str) :
  is_sentinel sel = true -> sel = earliest \/ sel = latest.
Proof.
  unfold is_sentinel. intros H. apply orb_true_iff in H as [H | H];
    apply str_eqb_eq in H; auto.
Qed.

Lemma py_lt_strings (s t : str) : py_lt (VStr s) (VStr t) = Return (str_ltb s t).
Proof. reflexivity. Qed.

Lemma py_gt_strings (s t : str) : py_gt (VStr s) (VStr t) = Return (str_ltb t s).
Proof. reflexivity. Qed.

(** The earliest and the latest timestamp of a non-empty sequence of
    features with string timestamps. *)
Lemma earliest_of_strings (fs : list value) :
  fs <> [] -> Forall str_timed fs ->
  exists lo, py_min onset_timestamp_of fs = Return (VStr lo)
             /\ In lo (timestamps fs)
             /\ forall t, In t (timestamps fs) -> str_leb lo t = true.
Proof.
  intros Hne H. destruct fs as [|x items]; [congruence|].
  destruct (@best_of_strings str_ltb py_lt x items py_lt_strings
              str_ltb_irrefl str_ltb_trans H) as (lo & Hrun & Hin & Hbest).
  exists lo. repeat split; try assumption.
  intros t Ht. unfold str_leb. now rewrite (Hbest t Ht).
Qed.

Lemma latest_of_strings (fs : list value) :
  fs <> [] -> Forall str_timed fs ->
  exists hi, py_max onset_timestamp_of fs = Return (VStr hi)
             /\ In hi (timestamps fs)
             /\ forall t, In t (timestamps fs) -> str_leb t hi = true.
Proof.
  intros Hne H. destruct fs as [|x items]; [congruence|].
  destruct (@best_of_strings (fun a b => str_ltb b a) py_gt x items
              py_gt_strings str_ltb_irrefl str_gtb_trans H)
    as (hi & Hrun & Hin & Hbest).
  exists hi. repeat split; try assumption.
  intros t Ht. unfold str_leb. now rewrite (Hbest t Ht).
Qed.

(** What a call makes of the record, once the target is resolved. *)
Lemma filter_run (w : world) (p : loc) (sel : str) (target : value)
      (fs ds : list value) :
  compute_onset_timestamp p sel w = (Return target, w) ->
  has_entries k_phenotypicFeatures (heap w p) fs ->
  has_entries k_diseases (heap w p) ds ->
  Forall timed fs -> Forall timed ds ->
  exists w',
    filter_phenopacket_by_onset p sel w = (Return p, w')
    /\ heap w' p
       = dict_set k_diseases (VList (filter (onset_is target) ds))
           (dict_set k_phenotypicFeatures (VList (filter (onset_is target) fs))
              (heap w p))
    /\ (forall l, l <> p -> heap w' l = heap w l)
    /\ warnings w' = warnings w.
Proof.
  intros Hc Hf Hd Tf Td.
  unfold filter_phenopacket_by_onset, bind. rewrite Hc.
  unfold deref, lift.
  rewrite (has_entries_iter Hf), (has_entries_iter Hd). cbn [obind].
  rewrite (onset_loop_filter target [] Tf), (onset_loop_filter target [] Td).
  cbn [app]. unfold setitem, ret. eexists. split; [reflexivity|].
  cbn [heap warnings]. rewrite Nat.eqb_refl. repeat split.
  intros l Hl. apply Nat.eqb_neq in Hl. now rewrite Hl.
Qed.

(** What a successful call must have done. *)
Lemma filter_success (w w' : world) (p r : loc) (sel : str) :
  filter_phenopacket_by_onset p sel w = (Return r, w') ->
  r = p /\
  exists fs' ds',
    heap w' p = dict_set k_diseases (VList ds')
                  (dict_set k_phenotypicFeatures (VList fs') (heap w p))
    /\ (dict_lookup k_phenotypicFeatures (heap w p) = None -> fs' = [])
    /\ (dict_lookup k_diseases (heap w p) = None -> ds' = [])
    /\ (forall l, l <> p -> heap w' l = heap w l)
    /\ warnings w' = warnings w.
Proof.
  unfold filter_phenopacket_by_onset, bind.
  pose proof (compute_onset_timestamp_pure p sel w) as Hp.
  destruct (compute_onset_timestamp p sel w) as [[target|e] w0];
    cbn [snd] in Hp; subst w0; [|discriminate].
  unfold deref, lift.
  destruct (obind (py_iter (dict_get k_phenotypicFeatures (VList []) (heap w p))) _)
    as [fs'|e] eqn:Ef; [|discriminate].
  destruct (obind (py_iter (dict_get k_diseases (VList []) (heap w p))) _)
    as [ds'|e] eqn:Ed; [|discriminate].
  unfold setitem, ret. intros [= <- <-]. split; [reflexivity|].
  exists fs', ds'. cbn [heap warnings]. rewrite Nat.eqb_refl.
  repeat split.
  - intros Hn. unfold dict_get in Ef. rewrite Hn in Ef. now injection Ef.
  - intros Hn. unfold dict_get in Ed. rewrite Hn in Ed. now injection Ed.
  - intros l Hl. apply Nat.eqb_neq in Hl. now rewrite Hl.
Qed.

(** ** Claims about the onset filter *)

(** C1: for a record whose entries carry an [onset.timestamp], and a selector
    that is a literal timestamp or a sentinel over a non-empty sequence of
    features with string timestamps, the call resolves a target from the
    features, returns the reference it was given, and leaves under
    [phenotypicFeatures] exactly the original features whose timestamp
    equals the target and under [diseases] exactly the original diseases
    whose timestamp equals that same target, both in their original order
    ([filter] keeps the order); a missing list counts as the empty sequence
    and comes out as an empty list. *)
Theorem filter_by_onset_keeps_matching
        (w : world) (p : loc) (sel : str) (fs ds : list value) :
  has_entries k_phenotypicFeatures (heap w p) fs ->
  has_entries k_diseases (heap w p) ds ->
  Forall timed fs -> Forall timed ds ->
  (is_sentinel sel = true -> fs <> [] /\ Forall str_timed fs) ->
  exists target w',
    compute_onset_timestamp p sel w = (Return target, w)
    /\ filter_phenopacket_by_onset p sel w = (Return p, w')
    /\ dict_lookup k_phenotypicFeatures (heap w' p)
       = Some (VList (filter (onset_is target) fs))
    /\ dict_lookup k_diseases (heap w' p)
       = Some (VList (filter (onset_is target) ds))
    /\ (dict_lookup k_phenotypicFeatures (heap w p) = None ->
        dict_lookup k_phenotypicFeatures (heap w' p) = Some (VList []))
    /\ (dict_lookup k_diseases (heap w p) = None ->
        dict_lookup k_diseases (heap w' p) = Some (VList [])).
Proof.
  intros Hf Hd Tf Td Hsel.
  assert (exists target, compute_onset_timestamp p sel w = (Return target, w))
    as [target Hc].
  { destruct (is_sentinel sel) eqn:E.
    - destruct (Hsel eq_refl) as [Hne Hs].
      apply is_sentinel_cases in E as [-> | ->].
      + destruct (earliest_of_strings Hne Hs) as (lo & Hlo & _).
        exists (VStr lo). rewrite compute_earliest, (has_entries_iter Hf).
        cbn [obind]. now rewrite Hlo.
      + destruct (latest_of_strings Hne Hs) as (hi & Hhi & _).
        exists (VStr hi). rewrite compute_latest, (has_entries_iter Hf).
        cbn [obind]. now rewrite Hhi.
    - exists (VStr sel). now apply compute_literal. }
  destruct (@filter_run w p sel target fs ds Hc Hf Hd Tf Td) as (w' & Hrun & Hheap & _ & _).
  assert (dict_lookup k_phenotypicFeatures (heap w' p)
          = Some (VList (filter (onset_is target) fs))) as HF.
  { rewrite Hheap, dict_lookup_set_other by apply features_key_is_not_diseases.
    apply dict_lookup_set_same. }
  assert (dict_lookup k_diseases (heap w' p)
          = Some (VList (filter (onset_is target) ds))) as HD.
  { rewrite Hheap. apply dict_lookup_set_same. }
  exists target, w'. repeat split; try assumption.
  - intros Hn. rewrite HF. destruct Hf as [_ | xs Hx]; [reflexivity|congruence].
  - intros Hn. rewrite HD. destruct Hd as [_ | xs Hx]; [reflexivity|congruence].
Qed.

Lemma sample_features_str_timed : Forall str_timed sample_features.
Proof. repeat constructor; eexists; reflexivity. Qed.

Lemma sample_diseases_timed : Forall timed sample_diseases.
Proof. repeat constructor; eexists; reflexivity. Qed.

Lemma sample_features_timed : Forall timed sample_features.
Proof. repeat constructor; eexists; reflexivity. Qed.

Lemma filter_by_onset_keeps_matching_witness :
  exists target w',
    compute_onset_timestamp 0 earliest (world_of sample_without_diseases)
    = (Return target, world_of sample_without_diseases)
    /\ filter_phenopacket_by_onset 0 earliest (world_of sample_without_diseases)
       = (Return 0, w')
    /\ dict_lookup k_phenotypicFeatures (heap w' 0)
       = Some (VList (filter (onset_is target) sample_features))
    /\ dict_lookup k_diseases (heap w' 0)
       = Some (VList (filter (onset_is target) []))
    /\ (dict_lookup k_phenotypicFeatures
          (heap (world_of sample_without_diseases) 0) = None ->
        dict_lookup k_phenotypicFeatures (heap w' 0) = Some (VList []))
    /\ (dict_lookup k_diseases
          (heap (world_of sample_without_diseases) 0) = None ->
        dict_lookup k_diseases (heap w' 0) = Some (VList [])).
Proof.
  apply (@filter_by_onset_keeps_matching
           (world_of sample_without_diseases) 0 earliest sample_features []).
  - apply entries_present. reflexivity.
  - apply entries_absent. reflexivity.
  - exact sample_features_timed.
  - constructor.
  - intros _. split; [discriminate | exact sample_features_str_timed].
Defined.

(** C4: with the features of the record being [fs] (none when the key is
    missing), ["earliest"] and ["latest"] fail with [ValueError] exactly
    when [fs] is empty; when [fs] is not empty and its timestamps are
    strings they resolve to a timestamp of [fs] that is lexically least,
    respectively greatest, among the timestamps of [fs]; and whatever is
    stored under [diseases] has no influence on the resolution. *)
Theorem onset_resolution (w : world) (p : loc) (fs : list value) :
  has_entries k_phenotypicFeatures (heap w p) fs ->
  (fst (compute_onset_timestamp p earliest w) = Raise ValueError <-> fs = [])
  /\ (fst (compute_onset_timestamp p latest w) = Raise ValueError <-> fs = [])
  /\ (fs <> [] -> Forall str_timed fs ->
      exists lo hi,
        compute_onset_timestamp p earliest w = (Return (VStr lo), w)
        /\ compute_onset_timestamp p latest w = (Return (VStr hi), w)
        /\ In lo (timestamps fs) /\ In hi (timestamps fs)
        /\ forall t, In t (timestamps fs) ->
                     str_leb lo t = true /\ str_leb t hi = true)
  /\ (forall (sel : str) (v : value),
        fst (compute_onset_timestamp p sel (snd (setitem p k_diseases v w)))
        = fst (compute_onset_timestamp p sel w)).
Proof.
  intros Hf. repeat split.
  - rewrite compute_earliest, (has_entries_iter Hf). cbn [fst obind].
    apply best_of_empty_iff.
    + intros a b H. now apply py_lt_raises_type_error in H.
    + apply onset_timestamp_no_value_error.
  - rewrite compute_earliest, (has_entries_iter Hf). cbn [fst obind].
    apply best_of_empty_iff.
    + intros a b H. now apply py_lt_raises_type_error in H.
    + apply onset_timestamp_no_value_error.
  - rewrite compute_latest, (has_entries_iter Hf). cbn [fst obind].
    apply best_of_empty_iff.
    + intros a b H. now apply py_gt_raises_type_error in H.
    + apply onset_timestamp_no_value_error.
  - rewrite compute_latest, (has_entries_iter Hf). cbn [fst obind].
    apply best_of_empty_iff.
    + intros a b H. now apply py_gt_raises_type_error in H.
    + apply onset_timestamp_no_value_error.
  - intros Hne Hs.
    destruct (earliest_of_strings Hne Hs) as (lo & Hlo & Hlo_in & Hlo_le).
    destruct (latest_of_strings Hne Hs) as (hi & Hhi & Hhi_in & Hhi_le).
    exists lo, hi.
    rewrite compute_earliest, compute_latest, (has_entries_iter Hf).
    cbn [obind]. rewrite Hlo, Hhi. repeat split; auto.
  - intros sel v. unfold compute_onset_timestamp.
    assert (dict_get k_phenotypicFeatures (VList [])
              (heap (snd (setitem p k_diseases v w)) p)
            = dict_get k_phenotypicFeatures (VList []) (heap w p)) as E.
    { unfold setitem, dict_get. cbn [snd heap]. rewrite Nat.eqb_refl.
      now rewrite dict_lookup_set_other by apply features_key_is_not_diseases. }
    destruct (str_eqb sel earliest); [|destruct (str_eqb sel latest)];
      unfold bind, deref, lift, ret; cbn [fst]; try rewrite E; reflexivity.
Qed.

Lemma onset_resolution_witness :
  (fst (compute_onset_timestamp 0 earliest (world_of sample_phenopacket))
   = Raise ValueError <-> sample_features = [])
  /\ (fst (compute_onset_timestamp 0 latest (world_of sample_phenopacket))
      = Raise ValueError <-> sample_features = [])
  /\ (sample_features <> [] -> Forall str_timed sample_features ->
      exists lo hi,
        compute_onset_timestamp 0 earliest (world_of sample_phenopacket)
        = (Return (VStr lo), world_of sample_phenopacket)
        /\ compute_onset_timestamp 0 latest (world_of sample_phenopacket)
           = (Return (VStr hi), world_of sample_phenopacket)
        /\ In lo (timestamps sample_features)
        /\ In hi (timestamps sample_features)
        /\ forall t, In t (timestamps sample_features) ->
                     str_leb lo t = true /\ str_leb t hi = true)
  /\ (forall (sel : str) (v : value),
        fst (compute_onset_timestamp 0 sel
               (snd (setitem 0 k_diseases v (world_of sample_phenopacket))))
        = fst (compute_onset_timestamp 0 sel (world_of sample_phenopacket))).
Proof.
  apply (@onset_resolution (world_of sample_phenopacket) 0 sample_features).
  apply entries_present. reflexivity.
Defined.

(** C10: whenever a call succeeds, it returns the reference it was given,
    and the record then has both keys, each bound to a list, which is empty
    when the key was missing before the call; every other key of the record
    maps to what it mapped to before, and no other object has changed. *)
Theorem filter_binds_both_keys (w w' : world) (p r : loc) (sel : str) :
  filter_phenopacket_by_onset p sel w = (Return r, w') ->
  r = p
  /\ (exists fs', dict_lookup k_phenotypicFeatures (heap w' p) = Some (VList fs')
                  /\ (dict_lookup k_phenotypicFeatures (heap w p) = None ->
                      fs' = []))
  /\ (exists ds', dict_lookup k_diseases (heap w' p) = Some (VList ds')
                  /\ (dict_lookup k_diseases (heap w p) = None -> ds' = []))
  /\ (forall k, k <> k_phenotypicFeatures -> k <> k_diseases ->
                dict_lookup k (heap w' p) = dict_lookup k (heap w p))
  /\ (forall l, l <> p -> heap w' l = heap w l).
Proof.
  intros H. apply filter_success in H
    as (-> & fs' & ds' & Hheap & Hf & Hd & Hother & _).
  split; [reflexivity|]. repeat split.
  - exists fs'. split; [|exact Hf].
    rewrite Hheap, dict_lookup_set_other by apply features_key_is_not_diseases.
    apply dict_lookup_set_same.
  - exists ds'. split; [|exact Hd]. rewrite Hheap. apply dict_lookup_set_same.
  - intros k Hk1 Hk2. rewrite Hheap.
    now rewrite !dict_lookup_set_other by assumption.
  - exact Hother.
Qed.

Lemma filter_binds_both_keys_witness :
  dict_lookup k_diseases sample_without_diseases = None
  /\ exists w',
      filter_phenopacket_by_onset 0 (lit "2020-01-01")
        (world_of sample_without_diseases) = (Return 0, w')
      /\ dict_lookup k_diseases (heap w' 0) = Some (VList [])
      /\ dict_lookup k_subject (heap w' 0)
         = dict_lookup k_subject sample_without_diseases.
Proof.
  split; [reflexivity|].
  pose (w' := snd (filter_phenopacket_by_onset 0 (lit "2020-01-01")
                     (world_of sample_without_diseases))).
  assert (filter_phenopacket_by_onset 0 (lit "2020-01-01")
            (world_of sample_without_diseases) = (Return 0, w')) as Hrun
      by reflexivity.
  exists w'. split; [exact Hrun|].
  destruct (@filter_binds_both_keys (world_of sample_without_diseases) w' 0 0
              (lit "2020-01-01") Hrun)
    as (_ & _ & (ds' & Hd & Hempty) & Hkeys & _).
  split.
  - rewrite Hd, Hempty; reflexivity.
  - apply Hkeys; discriminate.
Defined.

Lemma filter_idempotent {A} (f : A -> bool) (l : list A) :
  filter f (filter f l) = filter f l.
Proof.
  induction l as [|x l IH]; simpl; [reflexivity|].
  destruct (f x) eqn:E; simpl; [rewrite E, IH|]; auto.
Qed.

Lemma Forall_filter {A} (P : A -> Prop) (f : A -> bool) (l : list A) :
  Forall P l -> Forall P (filter f l).
Proof.
  induction 1 as [|x l Hx _ IH]; simpl; [constructor|].
  destruct (f x); [constructor|]; assumption.
Qed.

Lemma onset_is_string (x : value) (s lo : str) :
  str_timestamp x = Some s -> onset_is (VStr lo) x = str_eqb s lo.
Proof.
  unfold str_timestamp, onset_is.
  destruct (at_path x [k_onset; k_timestamp]) as [[| | |t| |]|]; try discriminate.
  now intros [= ->].
Qed.

Lemma timestamps_of_kept (lo t : str) (fs : list value) :
  In t (timestamps (filter (onset_is (VStr lo)) fs)) -> t = lo.
Proof.
  induction fs as [|x fs IH]; simpl; [tauto|].
  destruct (onset_is (VStr lo) x) eqn:E; [|exact IH]. simpl.
  destruct (str_timestamp x) as [s|] eqn:Es; [|exact IH].
  intros [<- | H]; [|now apply IH].
  rewrite (@onset_is_string x _ _ Es) in E. now apply str_eqb_eq.
Qed.

Lemma kept_not_empty (lo : str) (fs : list value) :
  In lo (timestamps fs) -> filter (onset_is (VStr lo)) fs <> [].
Proof.
  induction fs as [|x fs IH]; simpl; [tauto|].
  destruct (str_timestamp x) as [s|] eqn:Es.
  - intros [-> | H].
    + rewrite (@onset_is_string x _ _ Es), str_eqb_refl. discriminate.
    + destruct (onset_is (VStr lo) x); [discriminate | now apply IH].
  - intros H. destruct (onset_is (VStr lo) x); [discriminate | now apply IH].
Qed.

(** C8: on a record with a non-empty sequence of features whose timestamps
    are strings (and diseases that carry a timestamp), filtering by
    ["earliest"] succeeds, and filtering the result by ["earliest"] again
    succeeds and leaves every object, the record included, as the first
    call left it. *)
Theorem filter_earliest_fixed_point
        (w : world) (p : loc) (fs ds : list value) :
  has_entries k_phenotypicFeatures (heap w p) fs ->
  fs <> [] -> Forall str_timed fs ->
  has_entries k_diseases (heap w p) ds -> Forall timed ds ->
  exists w1 w2,
    filter_phenopacket_by_onset p earliest w = (Return p, w1)
    /\ filter_phenopacket_by_onset p earliest w1 = (Return p, w2)
    /\ (forall l, heap w2 l = heap w1 l)
    /\ warnings w2 = warnings w1.
Proof.
  intros Hf Hne Hs Hd Td.
  assert (Forall timed fs) as Tf
      by (eapply Forall_impl; [apply str_timed_timed | exact Hs]).
  (* first call *)
  destruct (earliest_of_strings Hne Hs) as (lo & Hlo & Hlo_in & _).
  assert (compute_onset_timestamp p earliest w = (Return (VStr lo), w)) as Hc.
  { rewrite compute_earliest, (has_entries_iter Hf). cbn [obind].
    now rewrite Hlo. }
  destruct (@filter_run w p earliest (VStr lo) fs ds Hc Hf Hd Tf Td)
    as (w1 & Hrun1 & Hheap1 & Hother1 & Hlog1).
  set (fs1 := filter (onset_is (VStr lo)) fs) in *.
  set (ds1 := filter (onset_is (VStr lo)) ds) in *.
  assert (dict_lookup k_phenotypicFeatures (heap w1 p) = Some (VList fs1)) as HF1.
  { rewrite Hheap1, dict_lookup_set_other by apply features_key_is_not_diseases.
    apply dict_lookup_set_same. }
  assert (dict_lookup k_diseases (heap w1 p) = Some (VList ds1)) as HD1.
  { rewrite Hheap1. apply dict_lookup_set_same. }
  (* second call *)
  assert (Forall str_timed fs1) as Hs1 by now apply Forall_filter.
  assert (fs1 <> []) as Hne1 by now apply kept_not_empty.
  destruct (earliest_of_strings Hne1 Hs1) as (lo' & Hlo' & Hlo'_in & _).
  assert (lo' = lo) as -> by now apply timestamps_of_kept with (fs := fs).
  assert (compute_onset_timestamp p earliest w1 = (Return (VStr lo), w1)) as Hc1.
  { rewrite compute_earliest. unfold dict_get. rewrite HF1. cbn [py_iter obind].
    now rewrite Hlo'. }
  destruct (@filter_run w1 p earliest (VStr lo) fs1 ds1 Hc1)
    as (w2 & Hrun2 & Hheap2 & Hother2 & Hlog2).
  { now apply entries_present. }
  { now apply entries_present. }
  { eapply Forall_impl; [apply str_timed_timed | exact Hs1]. }
  { now apply Forall_filter. }
  exists w1, w2. repeat split; try assumption.
  intros l. destruct (Nat.eq_dec l p) as [-> | Hl]; [|now apply Hother2].
  rewrite Hheap2. unfold ds1, fs1. rewrite !filter_idempotent.
  fold ds1 fs1. rewrite (@dict_set_known _ _ _ HF1). now apply dict_set_known.
Qed.

Lemma filter_earliest_fixed_point_witness :
  exists w1 w2,
    filter_phenopacket_by_onset 0 earliest (world_of sample_phenopacket)
    = (Return 0, w1)
    /\ filter_phenopacket_by_onset 0 earliest w1 = (Return 0, w2)
    /\ (forall l, heap w2 l = heap w1 l)
    /\ warnings w2 = warnings w1.
Proof.
  apply (@filter_earliest_fixed_point (world_of sample_phenopacket) 0
           sample_features sample_diseases).
  - apply entries_present. reflexivity.
  - discriminate.
  - exact sample_features_str_timed.
  - apply entries_present. reflexivity.
  - exact sample_diseases_timed.
Defined.

(** ** Running the extractors *)

Section ExtractorFacts.

Variable container_repr : value -> str.

Lemma term_string_cases (field : str) (x : value) :
  (described field x
   /\ term_string container_repr field x
      = Return (term_text container_repr field x)
   /\ py_get x k_excluded (VInt 0)
      = Return (dict_get k_excluded (VInt 0)
                  match x with VDict d => d | _ => [] end)
   /\ truthy (dict_get k_excluded (VInt 0)
                match x with VDict d => d | _ => [] end) = flagged x)
  \/ (~ described field x
      /\ exists e, term_string container_repr field x = Raise e).
Proof.
  unfold described, term_string, term_text, flagged.
  destruct x as [| | | | |d]; cbn [getitem obind at_path];
    try (right; split; [intros [[i Hi] _]; discriminate | eexists; reflexivity]).
  destruct (dict_lookup field d) as [t|] eqn:Et; cbn [obind];
    [|right; split; [intros [[i Hi] _]; discriminate | eexists; reflexivity]].
  destruct t as [| | | | |d']; cbn [getitem obind at_path];
    try (right; split; [intros [[i Hi] _]; discriminate | eexists; reflexivity]).
  destruct (dict_lookup k_id d') as [i|] eqn:Ei; cbn [obind];
    [|right; split; [intros [[i Hi] _]; discriminate | eexists; reflexivity]].
  cbn [obind getitem].
  destruct (dict_lookup k_label d') as [l|] eqn:El; cbn [obind];
    [|right; split; [intros [_ [l Hl]]; discriminate | eexists; reflexivity]].
  left. split; [split; eexists; reflexivity|].
  split; [reflexivity|]. split; [reflexivity|].
  unfold dict_get. now destruct (dict_lookup k_excluded d).
Qed.

Lemma term_loop_described (field : str) (ign : bool)
      (items : list value) (acc : list str) :
  Forall (described field) items ->
  term_loop container_repr field ign items acc
  = Return (acc ++ map (rendered container_repr field) (retained ign items)).
Proof.
  intros H; revert acc; induction H as [|x items Hx _ IH]; intros acc.
  - simpl. now rewrite app_nil_r.
  - destruct (term_string_cases field x)
      as [(_ & Hs & Hg & Hfl) | (Hn & _)]; [|contradiction].
    cbn [term_loop]. rewrite Hs. cbn [obind]. rewrite Hg. cbn [obind].
    rewrite Hfl. unfold retained. cbn [filter].
    destruct (flagged x) eqn:Efl, ign; cbn [andb negb map]; rewrite IH;
      try (unfold rendered at 2; rewrite Efl);
      try rewrite <- app_assoc; reflexivity.
Qed.

Lemma term_loop_cases (field : str) (items : list value) :
  Forall (described field) items
  \/ exists e, forall ign acc,
      term_loop container_repr field ign items acc = Raise e.
Proof.
  induction items as [|x items IH]; [left; constructor|].
  destruct (term_string_cases field x)
    as [(Hx & Hs & Hg & Hfl) | (_ & e & He)].
  - destruct IH as [IH | [e IH]]; [left; now constructor|].
    right. exists e. intros ign acc. cbn [term_loop].
    rewrite Hs. cbn [obind]. rewrite Hg. cbn [obind].
    destruct (truthy _), ign; apply IH.
  - right. exists e. intros ign acc. cbn [term_loop]. now rewrite He.
Qed.

Lemma join_joined (parts : list str) : join separator parts = joined parts.
Proof.
  destruct parts as [|s rest]; [reflexivity|].
  revert s; induction rest as [|t rest IH]; intros s.
  - simpl. now rewrite app_nil_r.
  - change (join separator (s :: t :: rest))
      with (s ++ separator ++ join separator (t :: rest)).
    rewrite IH. unfold joined. cbn [map List.concat].
    now rewrite <- app_assoc.
Qed.

Lemma extract_HPO_present (w : world) (p : loc) (ign : bool) (v : value) :
  dict_lookup k_phenotypicFeatures (heap w p) = Some v ->
  extract_HPO_terms_from_phenopacket container_repr p ign w
  = (omap (join separator)
          (features <- py_iter v ;;
           term_loop container_repr k_type ign features []), w).
Proof.
  intros H. unfold extract_HPO_terms_from_phenopacket, bind, deref,
              dict_contains.
  rewrite H. cbn [negb]. unfold lift, getitem. rewrite H.
  destruct (obind (py_iter v) _); reflexivity.
Qed.

Lemma extract_disease_present (w : world) (p : loc) (ign : bool) (v : value) :
  dict_lookup k_diseases (heap w p) = Some v ->
  extract_disease_terms_from_phenopacket container_repr p ign w
  = (omap (join separator)
          (items <- py_iter v ;;
           term_loop container_repr k_term ign items []), w).
Proof.
  intros H. unfold extract_disease_terms_from_phenopacket, bind, deref,
              dict_contains.
  rewrite H. cbn [negb]. unfold lift, getitem. rewrite H.
  destruct (obind (py_iter v) _); reflexivity.
Qed.

Lemma extract_HPO_absent (w : world) (p : loc) (ign : bool) :
  dict_lookup k_phenotypicFeatures (heap w p) = None ->
  extract_HPO_terms_from_phenopacket container_repr p ign w
  = match (s <- getitem (VDict (heap w p)) k_subject ;; getitem s k_id) with
    | Return sid =>
        (Return [],
         {| heap := heap w;
            warnings := warnings w
                        ++ [lit "SAMS: No phenotypicFeatures found for "
                                ++ format_value container_repr sid] |})
    | Raise e => (Raise e, w)
    end.
Proof.
  intros H. unfold extract_HPO_terms_from_phenopacket, bind, deref,
              dict_contains.
  rewrite H. cbn [negb]. unfold lift.
  destruct (obind (getitem (VDict (heap w p)) k_subject) _); reflexivity.
Qed.

Lemma extract_disease_absent (w : world) (p : loc) (ign : bool) :
  dict_lookup k_diseases (heap w p) = None ->
  extract_disease_terms_from_phenopacket container_repr p ign w
  = match (s <- getitem (VDict (heap w p)) k_subject ;; getitem s k_id) with
    | Return sid =>
        (Return [],
         {| heap := heap w;
            warnings := warnings w
                        ++ [lit "SAMS: No diseases found for "
                                ++ format_value container_repr sid] |})
    | Raise e => (Raise e, w)
    end.
Proof.
  intros H. unfold extract_disease_terms_from_phenopacket, bind, deref,
              dict_contains.
  rewrite H. cbn [negb]. unfold lift.
  destruct (obind (getitem (VDict (heap w p)) k_subject) _); reflexivity.
Qed.

Lemma subject_id_at_path (d : dict) (sid : value) :
  at_path (VDict d) [k_subject; k_id] = Some sid ->
  (s <- getitem (VDict d) k_subject ;; getitem s k_id) = Return sid.
Proof.
  cbn [at_path getitem].
  destruct (dict_lookup k_subject d) as [s|]; [|discriminate]. cbn [obind].
  destruct s; try discriminate. cbn [getitem].
  destruct (dict_lookup k_id d0); [|discriminate]. now intros [= ->].
Qed.

(** C2: when [phenotypicFeatures] is a list of features that have
    [type.id] and [type.label], the extractor returns, without touching
    anything, the strings of the features in their original order, each
    ["{type.id} - {type.label}"]; a feature with a truthy [excluded] is
    left out when [ignore_excluded] is true and gets [" (excluded)"]
    appended when it is false; the strings follow one another with
    ["; "] before each but the first, so an empty sequence gives the
    empty string. *)
Theorem extract_HPO_terms_formats
        (w : world) (p : loc) (ignore_excluded : bool) (fs : list value) :
  dict_lookup k_phenotypicFeatures (heap w p) = Some (VList fs) ->
  Forall (described k_type) fs ->
  extract_HPO_terms_from_phenopacket container_repr p ignore_excluded w
  = (Return (joined (map (rendered container_repr k_type)
                         (retained ignore_excluded fs))), w)
  /\ (fs = [] ->
      extract_HPO_terms_from_phenopacket container_repr p ignore_excluded w
      = (Return [], w)).
Proof.
  intros Hf Hd.
  assert (extract_HPO_terms_from_phenopacket container_repr p ignore_excluded w
          = (Return (joined (map (rendered container_repr k_type)
                                 (retained ignore_excluded fs))), w)) as E.
  { rewrite (extract_HPO_present w p ignore_excluded Hf). cbn [py_iter obind].
    rewrite (term_loop_described ignore_excluded [] Hd). cbn [app omap].
    now rewrite join_joined. }
  split; [exact E|]. intros ->. exact E.
Qed.

(** C7: when the [phenotypicFeatures] key is missing, the extractor
    returns the empty string and logs one warning that names [subject.id]
    if the record has one; if the record has no [subject], the lookup made
    for the warning raises [KeyError]. *)
Theorem extract_HPO_terms_without_features
        (w : world) (p : loc) (ignore_excluded : bool) :
  dict_lookup k_phenotypicFeatures (heap w p) = None ->
  (forall sid,
      at_path (VDict (heap w p)) [k_subject; k_id] = Some sid ->
      extract_HPO_terms_from_phenopacket container_repr p ignore_excluded w
      = (Return [],
         {| heap := heap w;
            warnings := warnings w
                        ++ [lit "SAMS: No phenotypicFeatures found for "
                                ++ format_value container_repr sid] |}))
  /\ (dict_lookup k_subject (heap w p) = None ->
      extract_HPO_terms_from_phenopacket container_repr p ignore_excluded w
      = (Raise (KeyError k_subject), w)).
Proof.
  intros Hn. split.
  - intros sid Hs. rewrite (extract_HPO_absent w p ignore_excluded Hn).
    now rewrite (subject_id_at_path _ Hs).
  - intros Hs. rewrite (extract_HPO_absent w p ignore_excluded Hn).
    cbn [getitem]. now rewrite Hs.
Qed.

(** C9: neither extractor changes any object, whatever the record and
    whatever the outcome, and a second run on the record gives the output
    of the first. *)
Theorem extractors_leave_record_unchanged
        (w : world) (p : loc) (ignore_excluded : bool) :
  let hpo := extract_HPO_terms_from_phenopacket container_repr p ignore_excluded in
  let dis := extract_disease_terms_from_phenopacket container_repr p ignore_excluded in
  heap (snd (hpo w)) = heap w
  /\ fst (hpo (snd (hpo w))) = fst (hpo w)
  /\ heap (snd (dis w)) = heap w
  /\ fst (dis (snd (dis w))) = fst (dis w).
Proof.
  cbv zeta. repeat split.
  - destruct (dict_lookup k_phenotypicFeatures (heap w p)) as [v|] eqn:E.
    + now rewrite (extract_HPO_present w p ignore_excluded E).
    + rewrite (extract_HPO_absent w p ignore_excluded E).
      now destruct (obind _ _).
  - destruct (dict_lookup k_phenotypicFeatures (heap w p)) as [v|] eqn:E.
    + rewrite (extract_HPO_present w p ignore_excluded E). cbn [snd fst].
      now rewrite (extract_HPO_present w p ignore_excluded E).
    + rewrite (extract_HPO_absent w p ignore_excluded E).
      destruct (obind _ _) as [sid|e] eqn:Es; cbn [snd fst].
      * rewrite extract_HPO_absent by exact E. cbn [heap]. now rewrite Es.
      * rewrite extract_HPO_absent by exact E. now rewrite Es.
  - destruct (dict_lookup k_diseases (heap w p)) as [v|] eqn:E.
    + now rewrite (extract_disease_present w p ignore_excluded E).
    + rewrite (extract_disease_absent w p ignore_excluded E).
      now destruct (obind _ _).
  - destruct (dict_lookup k_diseases (heap w p)) as [v|] eqn:E.
    + rewrite (extract_disease_present w p ignore_excluded E). cbn [snd fst].
      now rewrite (extract_disease_present w p ignore_excluded E).
    + rewrite (extract_disease_absent w p ignore_excluded E).
      destruct (obind _ _) as [sid|e] eqn:Es; cbn [snd fst].
      * rewrite extract_disease_absent by exact E. cbn [heap]. now rewrite Es.
      * rewrite extract_disease_absent by exact E. now rewrite Es.
Qed.

End ExtractorFacts.

(** ** Segments of an output string *)

Lemma split_from_not_empty (s current : str) : split_from current s <> [].
Proof.
  revert current; induction s as [|c s IH]; intros current; simpl;
    [discriminate|].
  destruct s as [|d s']; [discriminate|].
  destruct (N.eqb c 59 && N.eqb d 32); [discriminate | apply IH].
Qed.

Lemma split_from_segment (seg current rest : str) :
  split_from current seg = [current ++ seg] ->
  split_from current (seg ++ separator ++ rest)
  = (current ++ seg) :: split_from [] rest.
Proof.
  change separator with [59%N; 32%N].
  revert current; induction seg as [|c seg IH]; intros current H.
  - rewrite app_nil_r. reflexivity.
  - destruct seg as [|d seg'].
    + cbn [app split_from].
      replace (N.eqb c 59 && N.eqb 59 32) with false
        by (now rewrite andb_false_r).
      change (split_from (current ++ [c]) ([] ++ [59%N; 32%N] ++ rest)
              = (current ++ [c]) :: split_from [] rest).
      rewrite IH; [now rewrite app_nil_r | cbn; now rewrite app_nil_r].
    + cbn [app split_from] in H |- *.
      destruct (N.eqb c 59 && N.eqb d 32).
      * exfalso. injection H as _ H. now apply split_from_not_empty in H.
      * change (split_from (current ++ [c]) ((d :: seg') ++ [59%N; 32%N] ++ rest)
                = (current ++ c :: d :: seg') :: split_from [] rest).
        replace (current ++ c :: d :: seg') with ((current ++ [c]) ++ d :: seg')
          in H |- * by (now rewrite <- app_assoc).
        now apply IH.
Qed.

Lemma split_join (segs : list str) :
  segs <> [] ->
  Forall (fun s => split_on_separator s = [s]) segs ->
  split_on_separator (join separator segs) = segs.
Proof.
  intros Hne H. induction H as [|s segs Hs Hrest IH]; [congruence|].
  destruct segs as [|t rest]; [exact Hs|].
  change (join separator (s :: t :: rest))
    with (s ++ separator ++ join separator (t :: rest)).
  unfold split_on_separator in *.
  rewrite split_from_segment by exact Hs.
  cbn [app]. f_equal. apply IH. discriminate.
Qed.

Lemma skipn_length_app {A} (s t : list A) : skipn (List.length s) (s ++ t) = t.
Proof. induction s as [|x s IH]; [reflexivity | exact IH]. Qed.

Lemma ends_with_app (suffix s : str) : ends_with suffix (s ++ suffix) = true.
Proof.
  unfold ends_with. rewrite length_app, Nat.add_sub, skipn_length_app.
  apply str_eqb_refl.
Qed.

Lemma retained_all (xs : list value) : retained false xs = xs.
Proof.
  unfold retained. induction xs as [|x xs IH]; [reflexivity|].
  cbn [filter andb negb] in *. now rewrite IH.
Qed.

Lemma described_is_dict (field : str) (x : value) :
  described field x -> exists d, x = VDict d.
Proof.
  intros [[i Hi] _]. destruct x; try discriminate. now eexists.
Qed.

Section Segments.

Variable container_repr : value -> str.

Lemma kept_segments (items : list value) :
  Forall (fun x => unambiguous (rendered container_repr k_type x) (flagged x))
         items ->
  filter (fun s => negb (ends_with excluded_suffix s))
         (map (rendered container_repr k_type) items)
  = map (rendered container_repr k_type) (retained true items).
Proof.
  unfold retained. induction 1 as [|x items [_ Hx] _ IH]; [reflexivity|].
  cbn [map filter andb]. destruct (flagged x) eqn:E.
  - unfold rendered at 1. rewrite E, ends_with_app. exact IH.
  - rewrite (Hx eq_refl). cbn [negb map]. now rewrite IH.
Qed.

Lemma drop_of_rendered (items : list value) :
  Forall (fun x => unambiguous (rendered container_repr k_type x) (flagged x))
         items ->
  drop_excluded_segments
    (join separator (map (rendered container_repr k_type) items))
  = join separator (map (rendered container_repr k_type) (retained true items)).
Proof.
  intros H. unfold drop_excluded_segments.
  destruct items as [|x items]; [reflexivity|].
  rewrite split_join.
  - now rewrite kept_segments.
  - discriminate.
  - apply Forall_map. eapply Forall_impl; [|exact H]. now intros a [Ha _].
Qed.

(** C6, as far as it holds: if every feature that the extractor can
    format gives a string that is a single segment (it does not contain
    ["; "]) and ends in [" (excluded)"] only when the feature is
    flagged, then the outcome with [ignore_excluded] true is the outcome
    with [ignore_excluded] false, its segments ending in [" (excluded)"]
    taken out and the rest joined by ["; "]; both calls raise the same
    exception when one does. *)
Theorem ignoring_excluded_drops_tagged_segments (w : world) (p : loc) :
  (forall fs,
      dict_lookup k_phenotypicFeatures (heap w p) = Some (VList fs) ->
      Forall (plain_feature container_repr) fs) ->
  fst (extract_HPO_terms_from_phenopacket container_repr p true w)
  = omap drop_excluded_segments
         (fst (extract_HPO_terms_from_phenopacket container_repr p false w)).
Proof.
  intros Hclean.
  destruct (dict_lookup k_phenotypicFeatures (heap w p)) as [v|] eqn:E.
  - rewrite !(extract_HPO_present container_repr w p _ E). cbn [fst].
    destruct (py_iter v) as [items|e] eqn:Ei; [|reflexivity]. cbn [obind].
    destruct (term_loop_cases container_repr k_type items) as [Hd | [e He]].
    + rewrite !(term_loop_described container_repr _ [] Hd).
      cbn [app omap]. rewrite retained_all.
      rewrite drop_of_rendered; [reflexivity|].
      assert (Forall (plain_feature container_repr) items) as Hc.
      { destruct v; try discriminate; injection Ei as <-.
        - apply Forall_forall. intros x Hx Hdx.
          apply in_map_iff in Hx as (c & <- & _).
          now destruct (described_is_dict Hdx).
        - now apply Hclean.
        - apply Forall_forall. intros x Hx Hdx.
          apply in_map_iff in Hx as (kv & <- & _).
          now destruct (described_is_dict Hdx). }
      clear - Hd Hc. unfold plain_feature in Hc.
      induction Hd as [|x items Hx _ IH];
        inversion Hc; subst; constructor; auto.
    + now rewrite !He.
  - rewrite !(extract_HPO_absent container_repr w p _ E).
    now destruct (obind _ _).
Qed.

End Segments.

Lemma extract_HPO_terms_formats_witness :
  extract_HPO_terms_from_phenopacket no_repr 0 false
    (world_of sample_with_excluded)
  = (Return (lit "HP:0000001 - Phenotype 1; HP:0000002 - Phenotype 2 (excluded)"),
     world_of sample_with_excluded)
  /\ extract_HPO_terms_from_phenopacket no_repr 0 true
       (world_of sample_with_excluded)
     = (Return (lit "HP:0000001 - Phenotype 1"), world_of sample_with_excluded).
Proof.
  assert (dict_lookup k_phenotypicFeatures (heap (world_of sample_with_excluded) 0)
          = Some (VList match dict_lookup k_phenotypicFeatures sample_with_excluded with
                        | Some (VList fs) => fs
                        | _ => []
                        end)) as Hf by reflexivity.
  assert (Forall (described k_type)
                 match dict_lookup k_phenotypicFeatures sample_with_excluded with
                 | Some (VList fs) => fs
                 | _ => []
                 end) as Hd
      by (repeat constructor; eexists; reflexivity).
  split.
  - exact (proj1 (extract_HPO_terms_formats no_repr _ 0 false Hf Hd)).
  - exact (proj1 (extract_HPO_terms_formats no_repr _ 0 true Hf Hd)).
Defined.

Lemma extract_HPO_terms_without_features_witness :
  extract_HPO_terms_from_phenopacket no_repr 0 true
    (world_of sample_without_features)
  = (Return [],
     {| heap := fun _ => sample_without_features;
        warnings := [lit "SAMS: No phenotypicFeatures found for p2"] |})
  /\ extract_HPO_terms_from_phenopacket no_repr 0 true (world_of [])
     = (Raise (KeyError k_subject), world_of []).
Proof.
  split.
  - apply (proj1 (@extract_HPO_terms_without_features no_repr
                    (world_of sample_without_features) 0 true eq_refl)
                 (text "p2")).
    reflexivity.
  - apply (proj2 (@extract_HPO_terms_without_features no_repr
                    (world_of []) 0 true eq_refl)).
    reflexivity.
Defined.

Lemma ignoring_excluded_drops_tagged_segments_witness :
  fst (extract_HPO_terms_from_phenopacket no_repr 0 true
         (world_of sample_with_excluded))
  = omap drop_excluded_segments
         (fst (extract_HPO_terms_from_phenopacket no_repr 0 false
                 (world_of sample_with_excluded))).
Proof.
  apply ignoring_excluded_drops_tagged_segments.
  intros fs [= <-].
  apply Forall_cons; [|apply Forall_cons; [|apply Forall_nil]]; intros _.
  - split; [reflexivity | intros _; reflexivity].
  - split; [reflexivity | intros H; vm_compute in H; discriminate H].
Defined.

(** C6 as stated fails: the only feature of the record is not excluded, so
    both calls return ["HP:1 - A (excluded)"]; taking the segments that
    end in [" (excluded)"] out of the second output leaves the empty
    string. *)
Lemma ignoring_excluded_counterexample :
  fst (extract_HPO_terms_from_phenopacket no_repr 0 true
         (world_of sample_mislabelled))
  = Return (lit "HP:1 - A (excluded)")
  /\ fst (extract_HPO_terms_from_phenopacket no_repr 0 false
            (world_of sample_mislabelled))
     = Return (lit "HP:1 - A (excluded)")
  /\ drop_excluded_segments (lit "HP:1 - A (excluded)") = []
  /\ fst (extract_HPO_terms_from_phenopacket no_repr 0 true
            (world_of sample_mislabelled))
     <> omap drop_excluded_segments
             (fst (extract_HPO_terms_from_phenopacket no_repr 0 false
                     (world_of sample_mislabelled))).
Proof. repeat split; try reflexivity. discriminate. Qed.

(** ** Claims about the client *)

Section ClientFacts.

Variable session_post : str -> list (str * str) -> M Session Response.
Variable session_get : str -> M Session Response.
Variable file_content : str -> outcome str.

(** C3, as far as it holds: a readable file with exactly two lines logs
    in with the first line as the user name and the second as the
    password, both stripped; a readable file with any other number of
    lines raises [ValueError] and an unreadable one raises what reading
    it raised, in both cases before any request is made. *)
Theorem login_with_credentials_file_two_lines
        (credentials_file : str) (self : SAMSapi) :
  (forall content l1 l2,
      file_content credentials_file = Return content ->
      readlines content = [l1; l2] ->
      login_with_credentials_file session_post file_content
                                  credentials_file self
      = _login session_post (strip l1) (strip l2) self)
  /\ (forall content,
         file_content credentials_file = Return content ->
         List.length (readlines content) <> 2%nat ->
         login_with_credentials_file session_post file_content
                                     credentials_file self
         = (Raise ValueError, self))
  /\ (forall e,
         file_content credentials_file = Raise e ->
         login_with_credentials_file session_post file_content
                                     credentials_file self
         = (Raise e, self)).
Proof.
  unfold login_with_credentials_file, bind, lift. repeat split.
  - intros content l1 l2 -> Hl. cbn [obind]. rewrite Hl. reflexivity.
  - intros content -> Hl. cbn [obind].
    destruct (readlines content) as [|a [|b [|c rest]]]; try reflexivity.
    now contradiction Hl.
  - intros e ->. reflexivity.
Qed.

(** C5: when the request succeeds and the body parses to a record that
    has a [subject.id], the call raises [RuntimeError] exactly when that
    id is not the requested one, and returns the record as parsed exactly
    when it is. *)
Theorem get_phenopacket_checks_subject
        (patient_id : str) (self : SAMSapi) (resp : Response) (s' : Session)
        (record sid : value) :
  session_get (EXPORT_PHENOPACKET_BY_ID_URL patient_id) (session self)
  = (Return resp, s') ->
  (N.leb 400 (status_code resp) && N.ltb (status_code resp) 600)%bool = false ->
  json resp = Return record ->
  at_path record [k_subject; k_id] = Some sid ->
  (fst (get_phenopacket session_get patient_id self)
   = Raise (RuntimeError
              (lit "Failed to obtain phenopacket for external id "
                   ++ patient_id))
   <-> sid <> VStr patient_id)
  /\ (fst (get_phenopacket session_get patient_id self) = Return record
      <-> sid = VStr patient_id).
Proof.
  intros Hget Hok Hjson Hsid.
  assert ((s <- getitem record k_subject ;; getitem s k_id) = Return sid) as Hs.
  { destruct record; try discriminate. now apply subject_id_at_path. }
  unfold get_phenopacket, bind, on_session. rewrite Hget.
  unfold raise_for_status. rewrite Hok. unfold ret, lift.
  rewrite Hjson, Hs. unfold py_ne.
  destruct (py_eq sid (VStr patient_id)) eqn:E; cbn [negb fst].
  - apply py_eq_str in E. unfold raise. cbn [fst]. split; split; intros H;
      try congruence; try discriminate; reflexivity.
  - assert (sid <> VStr patient_id) as Hne.
    { intros Heq. apply py_eq_str in Heq. congruence. }
    unfold raise. cbn [fst]. split; split; intros H;
      try congruence; try discriminate; reflexivity.
Qed.

End ClientFacts.

Lemma login_with_credentials_file_two_lines_witness :
  login_with_credentials_file (fun _ _ => answering VNone)
                              (fun _ => Return two_lines) [] anonymous
  = _login (fun _ _ => answering VNone) (lit "user") (lit "pass") anonymous.
Proof.
  apply (proj1 (@login_with_credentials_file_two_lines
                  (fun _ _ => answering VNone) (fun _ => Return two_lines)
                  [] anonymous)
               two_lines (lit "user" ++ [10%N]) (lit " pass " ++ [10%N]));
    reflexivity.
Defined.

(** C3 as stated fails: a file of three lines can be read and has at least
    two lines, and the call raises [ValueError] instead of logging in with
    the first two. *)
Lemma login_with_credentials_file_counterexample :
  (2 <= List.length (readlines three_lines))%nat
  /\ login_with_credentials_file (fun _ _ => answering VNone)
                                 (fun _ => Return three_lines) [] anonymous
     = (Raise ValueError, anonymous)
  /\ login_with_credentials_file (fun _ _ => answering VNone)
                                 (fun _ => Return three_lines) [] anonymous
     <> _login (fun _ _ => answering VNone) (lit "user") (lit "pass") anonymous.
Proof.
  repeat split.
  - vm_compute. lia.
  - discriminate.
Qed.

Lemma get_phenopacket_checks_subject_witness :
  (fst (get_phenopacket (fun _ => answering (VDict sample_without_features))
                        (lit "patient1") anonymous)
   = Raise (RuntimeError
              (lit "Failed to obtain phenopacket for external id "
                   ++ lit "patient1"))
   <-> text "p2" <> VStr (lit "patient1"))
  /\ (fst (get_phenopacket (fun _ => answering (VDict sample_without_features))
                           (lit "patient1") anonymous)
      = Return (VDict sample_without_features)
      <-> text "p2" = VStr (lit "patient1")).
Proof.
  apply (@get_phenopacket_checks_subject
           (fun _ => answering (VDict sample_without_features))
           (lit "patient1") anonymous
           {| status_code := 200; json := Return (VDict sample_without_features) |}
           {| cookies := [] |});
    reflexivity.
Defined.

(** ** Further properties of the onset filter *)

Lemma filter_lookups (d : dict) (vf vd : value) :
  dict_lookup k_phenotypicFeatures
    (dict_set k_diseases vd (dict_set k_phenotypicFeatures vf d)) = Some vf
  /\ dict_lookup k_diseases
       (dict_set k_diseases vd (dict_set k_phenotypicFeatures vf d)) = Some vd.
Proof.
  split.
  - rewrite dict_lookup_set_other by apply features_key_is_not_diseases.
    apply dict_lookup_set_same.
  - apply dict_lookup_set_same.
Qed.

Lemma kept_all_at (lo : str) (fs : list value) :
  Forall str_timed fs -> all_at lo (filter (onset_is (VStr lo)) fs).
Proof.
  intros Hs x Hx. apply filter_In in Hx as [Hin Hon].
  rewrite Forall_forall in Hs. destruct (Hs x Hin) as [s Hts].
  pose proof (@str_timed_timestamp x s Hts) as Hst.
  rewrite (@onset_is_string x s lo Hst) in Hon.
  apply str_eqb_eq in Hon. now subst.
Qed.

Lemma timestamps_in (t : str) (xs : list value) :
  In t (timestamps xs) <-> exists x, In x xs /\ str_timestamp x = Some t.
Proof.
  induction xs as [|x xs IH]; simpl.
  - split; [tauto | now intros (x & [] & _)].
  - destruct (str_timestamp x) as [s|] eqn:E; simpl; rewrite IH; split.
    + intros [<- | (y & Hy & Ht)]; [exists x; auto | exists y; auto].
    + intros (y & [<- | Hy] & Ht); [left; congruence | right; eauto].
    + intros (y & Hy & Ht). exists y; auto.
    + intros (y & [<- | Hy] & Ht); [congruence | eauto].
Qed.

Lemma timestamps_all_at (t u : str) (xs : list value) :
  all_at t xs -> In u (timestamps xs) -> u = t.
Proof.
  intros Hall Hin. apply timestamps_in in Hin as (x & Hx & Hu).
  rewrite (Hall x Hx) in Hu. congruence.
Qed.

(** A sentinel over a non-empty sequence of string timestamps resolves to
    one of them. *)
Lemma sentinel_resolves (w : world) (p : loc) (sel : str) (fs : list value) :
  is_sentinel sel = true ->
  has_entries k_phenotypicFeatures (heap w p) fs ->
  fs <> [] -> Forall str_timed fs ->
  exists t, compute_onset_timestamp p sel w = (Return (VStr t), w)
            /\ In t (timestamps fs).
Proof.
  intros Hsel Hf Hne Hs. apply is_sentinel_cases in Hsel as [-> | ->].
  - destruct (earliest_of_strings Hne Hs) as (lo & Hlo & Hin & _).
    exists lo. rewrite compute_earliest, (has_entries_iter Hf). cbn [obind].
    now rewrite Hlo.
  - destruct (latest_of_strings Hne Hs) as (hi & Hhi & Hin & _).
    exists hi. rewrite compute_latest, (has_entries_iter Hf). cbn [obind].
    now rewrite Hhi.
Qed.

(** A call whose target every entry already has changes nothing. *)
Lemma filter_noop (w1 : world) (p : loc) (sel : str) (target : value)
      (fs1 ds1 : list value) :
  compute_onset_timestamp p sel w1 = (Return target, w1) ->
  dict_lookup k_phenotypicFeatures (heap w1 p) = Some (VList fs1) ->
  dict_lookup k_diseases (heap w1 p) = Some (VList ds1) ->
  Forall timed fs1 -> Forall timed ds1 ->
  filter (onset_is target) fs1 = fs1 ->
  filter (onset_is target) ds1 = ds1 ->
  exists w2, filter_phenopacket_by_onset p sel w1 = (Return p, w2)
             /\ (forall l, heap w2 l = heap w1 l)
             /\ warnings w2 = warnings w1.
Proof.
  intros Hc HF HD Tf Td Ef Ed.
  destruct (@filter_run w1 p sel target fs1 ds1 Hc
              (entries_present _ _ HF) (entries_present _ _ HD) Tf Td)
    as (w2 & Hrun & Hheap & Hother & Hlog).
  exists w2. repeat split; try assumption.
  intros l. destruct (Nat.eq_dec l p) as [-> | Hl]; [|now apply Hother].
  rewrite Hheap, Ef, Ed.
  rewrite (@dict_set_known _ _ _ HF). now apply dict_set_known.
Qed.

(** X1: a call either succeeds and returns the reference it was given, or
    raises and leaves every object and the log exactly as they were: the
    two keys are written only after both loops have finished. *)
Theorem filter_all_or_nothing (w : world) (p : loc) (sel : str) :
  (exists w', filter_phenopacket_by_onset p sel w = (Return p, w'))
  \/ (exists e, filter_phenopacket_by_onset p sel w = (Raise e, w)).
Proof.
  unfold filter_phenopacket_by_onset, bind.
  pose proof (compute_onset_timestamp_pure p sel w) as Hp.
  destruct (compute_onset_timestamp p sel w) as [[target|e] w0];
    cbn [snd] in Hp; subst w0; [|right; now exists e].
  unfold deref, lift.
  destruct (obind (py_iter (dict_get k_phenotypicFeatures (VList []) (heap w p))) _)
    as [fs'|e]; [|right; now exists e].
  destruct (obind (py_iter (dict_get k_diseases (VList []) (heap w p))) _)
    as [ds'|e]; [|right; now exists e].
  left. eexists. reflexivity.
Qed.

(** X2: with ["earliest"] or ["latest"] on a record whose features are
    missing or an empty list, the call raises [ValueError] and the record
    keeps its keys as they were (no empty lists are written). *)
Theorem filter_sentinel_needs_features (w : world) (p : loc) (sel : str) :
  has_entries k_phenotypicFeatures (heap w p) [] ->
  is_sentinel sel = true ->
  filter_phenopacket_by_onset p sel w = (Raise ValueError, w).
Proof.
  intros Hf Hsel. unfold filter_phenopacket_by_onset, bind.
  apply is_sentinel_cases in Hsel as [-> | ->].
  - rewrite compute_earliest, (has_entries_iter Hf). reflexivity.
  - rewrite compute_latest, (has_entries_iter Hf). reflexivity.
Qed.

Lemma filter_sentinel_needs_features_witness :
  filter_phenopacket_by_onset 0 latest (world_of sample_without_features)
  = (Raise ValueError, world_of sample_without_features).
Proof.
  apply filter_sentinel_needs_features.
  - apply entries_absent. reflexivity.
  - reflexivity.
Defined.

(** X3: filtering by a literal timestamp is idempotent: on a record whose
    entries carry a timestamp, a second call with the same literal succeeds
    and leaves every object as the first call left it. *)
Theorem filter_literal_idempotent
        (w : world) (p : loc) (sel : str) (fs ds : list value) :
  is_sentinel sel = false ->
  has_entries k_phenotypicFeatures (heap w p) fs ->
  has_entries k_diseases (heap w p) ds ->
  Forall timed fs -> Forall timed ds ->
  exists w1 w2,
    filter_phenopacket_by_onset p sel w = (Return p, w1)
    /\ filter_phenopacket_by_onset p sel w1 = (Return p, w2)
    /\ (forall l, heap w2 l = heap w1 l)
    /\ warnings w2 = warnings w1.
Proof.
  intros Hsel Hf Hd Tf Td.
  destruct (@filter_run w p sel (VStr sel) fs ds (@compute_literal p sel w Hsel)
              Hf Hd Tf Td) as (w1 & Hrun1 & Hheap1 & _ & _).
  destruct (filter_lookups (heap w p)
              (VList (filter (onset_is (VStr sel)) fs))
              (VList (filter (onset_is (VStr sel)) ds))) as [HF HD].
  rewrite <- Hheap1 in HF, HD.
  destruct (@filter_noop w1 p sel (VStr sel) _ _ (@compute_literal p sel w1 Hsel)
              HF HD) as (w2 & Hrun2 & Hsame & Hlog);
    try (now apply Forall_filter); try apply filter_idempotent.
  now exists w1, w2.
Qed.

Lemma filter_literal_idempotent_witness :
  exists w1 w2,
    filter_phenopacket_by_onset 0 (lit "2021-01-01") (world_of sample_phenopacket)
    = (Return 0, w1)
    /\ filter_phenopacket_by_onset 0 (lit "2021-01-01") w1 = (Return 0, w2)
    /\ (forall l, heap w2 l = heap w1 l)
    /\ warnings w2 = warnings w1.
Proof.
  apply (@filter_literal_idempotent (world_of sample_phenopacket) 0
           (lit "2021-01-01") sample_features sample_diseases).
  - reflexivity.
  - apply entries_present. reflexivity.
  - apply entries_present. reflexivity.
  - exact sample_features_timed.
  - exact sample_diseases_timed.
Defined.

(** X4: once a record has been filtered by a sentinel, filtering it by
    either sentinel changes nothing: on a non-empty sequence of features
    with string timestamps, ["earliest"] or ["latest"] followed by
    ["earliest"] or ["latest"] leaves every object as the first call left
    it, since the features that remain share one timestamp. *)
Theorem filter_sentinel_then_sentinel
        (w : world) (p : loc) (first second : str) (fs ds : list value) :
  is_sentinel first = true -> is_sentinel second = true ->
  has_entries k_phenotypicFeatures (heap w p) fs ->
  fs <> [] -> Forall str_timed fs ->
  has_entries k_diseases (heap w p) ds -> Forall timed ds ->
  exists w1 w2,
    filter_phenopacket_by_onset p first w = (Return p, w1)
    /\ filter_phenopacket_by_onset p second w1 = (Return p, w2)
    /\ (forall l, heap w2 l = heap w1 l)
    /\ warnings w2 = warnings w1.
Proof.
  intros H1 H2 Hf Hne Hs Hd Td.
  assert (Forall timed fs) as Tf
      by (eapply Forall_impl; [apply str_timed_timed | exact Hs]).
  destruct (@sentinel_resolves w p first fs H1 Hf Hne Hs) as (t & Hc & Hin).
  destruct (@filter_run w p first (VStr t) fs ds Hc Hf Hd Tf Td)
    as (w1 & Hrun1 & Hheap1 & _ & _).
  destruct (filter_lookups (heap w p)
              (VList (filter (onset_is (VStr t)) fs))
              (VList (filter (onset_is (VStr t)) ds))) as [HF HD].
  rewrite <- Hheap1 in HF, HD.
  assert (Forall str_timed (filter (onset_is (VStr t)) fs)) as Hs1
      by now apply Forall_filter.
  destruct (@sentinel_resolves w1 p second _ H2 (entries_present _ _ HF)
              (@kept_not_empty t fs Hin) Hs1) as (t' & Hc' & Hin').
  assert (t' = t) as -> by (eapply timestamps_of_kept; exact Hin').
  destruct (@filter_noop w1 p second (VStr t) _ _ Hc' HF HD)
    as (w2 & Hrun2 & Hsame & Hlog);
    try (now apply Forall_filter); try apply filter_idempotent.
  now exists w1, w2.
Qed.

Lemma filter_sentinel_then_sentinel_witness :
  exists w1 w2,
    filter_phenopacket_by_onset 0 latest (world_of sample_phenopacket)
    = (Return 0, w1)
    /\ filter_phenopacket_by_onset 0 earliest w1 = (Return 0, w2)
    /\ (forall l, heap w2 l = heap w1 l)
    /\ warnings w2 = warnings w1.
Proof.
  apply (@filter_sentinel_then_sentinel (world_of sample_phenopacket) 0
           latest earliest sample_features sample_diseases).
  - reflexivity.
  - reflexivity.
  - apply entries_present. reflexivity.
  - discriminate.
  - exact sample_features_str_timed.
  - apply entries_present. reflexivity.
  - exact sample_diseases_timed.
Defined.

(** X5: filtering by a sentinel never empties the features: on a non-empty
    sequence of features with string timestamps the call succeeds, at least
    one feature remains, and all remaining features carry one and the same
    timestamp, which is a timestamp of the original features. *)
Theorem filter_sentinel_keeps_a_feature
        (w : world) (p : loc) (sel : str) (fs ds : list value) :
  is_sentinel sel = true ->
  has_entries k_phenotypicFeatures (heap w p) fs ->
  fs <> [] -> Forall str_timed fs ->
  has_entries k_diseases (heap w p) ds -> Forall timed ds ->
  exists w' kept t,
    filter_phenopacket_by_onset p sel w = (Return p, w')
    /\ dict_lookup k_phenotypicFeatures (heap w' p) = Some (VList kept)
    /\ kept <> []
    /\ In t (timestamps fs)
    /\ all_at t kept.
Proof.
  intros Hsel Hf Hne Hs Hd Td.
  assert (Forall timed fs) as Tf
      by (eapply Forall_impl; [apply str_timed_timed | exact Hs]).
  destruct (@sentinel_resolves w p sel fs Hsel Hf Hne Hs) as (t & Hc & Hin).
  destruct (@filter_run w p sel (VStr t) fs ds Hc Hf Hd Tf Td)
    as (w' & Hrun & Hheap & _ & _).
  exists w', (filter (onset_is (VStr t)) fs), t. repeat split.
  - exact Hrun.
  - rewrite Hheap. apply filter_lookups.
  - now apply kept_not_empty.
  - exact Hin.
  - now apply kept_all_at.
Qed.

Lemma filter_sentinel_keeps_a_feature_witness :
  exists w' kept t,
    filter_phenopacket_by_onset 0 latest (world_of sample_without_diseases)
    = (Return 0, w')
    /\ dict_lookup k_phenotypicFeatures (heap w' 0) = Some (VList kept)
    /\ kept <> []
    /\ In t (timestamps sample_features)
    /\ all_at t kept.
Proof.
  apply (@filter_sentinel_keeps_a_feature (world_of sample_without_diseases) 0
           latest sample_features []).
  - reflexivity.
  - apply entries_present. reflexivity.
  - discriminate.
  - exact sample_features_str_timed.
  - apply entries_absent. reflexivity.
  - constructor.
Defined.

Lemma str_leb_antisym (a b : str) :
  str_leb a b = true -> str_leb b a = true -> a = b.
Proof.
  unfold str_leb. intros H1 H2.
  apply negb_true_iff in H1, H2. now apply str_ltb_connex.
Qed.

Lemma timestamps_permutation (t : str) (xs ys : list value) :
  Permutation xs ys -> In t (timestamps xs) -> In t (timestamps ys).
Proof.
  intros Hp Hin. apply timestamps_in in Hin as (x & Hx & Ht).
  apply timestamps_in. exists x. split; [|exact Ht].
  now apply Permutation_in with xs.
Qed.

(** X6: the timestamp a selector resolves to does not depend on the order
    of the features: two records whose feature sequences are permutations
    of one another, with string timestamps, resolve every selector to the
    same outcome. *)
Theorem resolution_order_independent
        (w w' : world) (p p' : loc) (sel : str) (fs fs' : list value) :
  has_entries k_phenotypicFeatures (heap w p) fs ->
  has_entries k_phenotypicFeatures (heap w' p') fs' ->
  Permutation fs fs' -> Forall str_timed fs ->
  fst (compute_onset_timestamp p sel w) = fst (compute_onset_timestamp p' sel w').
Proof.
  intros Hf Hf' Hp Hs.
  destruct (is_sentinel sel) eqn:Hsel;
    [|now rewrite !compute_literal by exact Hsel].
  assert (Forall str_timed fs') as Hs'
      by (eapply Permutation_Forall; eassumption).
  destruct fs as [|x items].
  { apply Permutation_nil in Hp. subst fs'.
    apply is_sentinel_cases in Hsel as [-> | ->].
    - now rewrite !compute_earliest, (has_entries_iter Hf), (has_entries_iter Hf').
    - now rewrite !compute_latest, (has_entries_iter Hf), (has_entries_iter Hf'). }
  assert (x :: items <> []) as Hne by discriminate.
  assert (fs' <> []) as Hne'.
  { intros ->. apply Permutation_sym, Permutation_nil in Hp. discriminate. }
  apply is_sentinel_cases in Hsel as [-> | ->].
  - destruct (earliest_of_strings Hne Hs) as (lo & Hlo & Hin & Hle).
    destruct (earliest_of_strings Hne' Hs') as (lo' & Hlo' & Hin' & Hle').
    rewrite !compute_earliest, (has_entries_iter Hf), (has_entries_iter Hf').
    cbn [obind fst]. rewrite Hlo, Hlo'. do 2 f_equal.
    apply str_leb_antisym.
    + apply Hle. eapply timestamps_permutation; [|exact Hin'].
      now apply Permutation_sym.
    + apply Hle'. eapply timestamps_permutation; eassumption.
  - destruct (latest_of_strings Hne Hs) as (hi & Hhi & Hin & Hle).
    destruct (latest_of_strings Hne' Hs') as (hi' & Hhi' & Hin' & Hle').
    rewrite !compute_latest, (has_entries_iter Hf), (has_entries_iter Hf').
    cbn [obind fst]. rewrite Hhi, Hhi'. do 2 f_equal.
    apply str_leb_antisym.
    + apply Hle'. eapply timestamps_permutation; eassumption.
    + apply Hle. eapply timestamps_permutation; [|exact Hin'].
      now apply Permutation_sym.
Qed.

Lemma resolution_order_independent_witness :
  fst (compute_onset_timestamp 0 earliest (world_of sample_phenopacket))
  = fst (compute_onset_timestamp 0 earliest
           (world_of [(k_phenotypicFeatures, VList (rev sample_features))])).
Proof.
  apply (@resolution_order_independent
           (world_of sample_phenopacket)
           (world_of [(k_phenotypicFeatures, VList (rev sample_features))])
           0 0 earliest sample_features (rev sample_features)).
  - apply entries_present. reflexivity.
  - apply entries_present. reflexivity.
  - apply Permutation_rev.
  - exact sample_features_str_timed.
Defined.

(** X7: on a non-empty sequence of features with string timestamps, the
    timestamp ["earliest"] resolves to is lexically not after the one
    ["latest"] resolves to, and the two coincide exactly when all features
    carry the same timestamp. *)
Theorem earliest_not_after_latest (w : world) (p : loc) (fs : list value) :
  has_entries k_phenotypicFeatures (heap w p) fs ->
  fs <> [] -> Forall str_timed fs ->
  exists lo hi,
    compute_onset_timestamp p earliest w = (Return (VStr lo), w)
    /\ compute_onset_timestamp p latest w = (Return (VStr hi), w)
    /\ str_leb lo hi = true
    /\ (lo = hi <-> forall t, In t (timestamps fs) -> t = lo).
Proof.
  intros Hf Hne Hs.
  destruct (earliest_of_strings Hne Hs) as (lo & Hlo & Hlo_in & Hlo_le).
  destruct (latest_of_strings Hne Hs) as (hi & Hhi & Hhi_in & Hhi_le).
  exists lo, hi.
  rewrite compute_earliest, compute_latest, (has_entries_iter Hf).
  cbn [obind]. rewrite Hlo, Hhi. repeat split; auto.
  - intros <- t Ht. symmetry. apply str_leb_antisym; auto.
  - intros Hall. symmetry. now apply Hall.
Qed.

Lemma earliest_not_after_latest_witness :
  exists lo hi,
    compute_onset_timestamp 0 earliest (world_of sample_phenopacket)
    = (Return (VStr lo), world_of sample_phenopacket)
    /\ compute_onset_timestamp 0 latest (world_of sample_phenopacket)
       = (Return (VStr hi), world_of sample_phenopacket)
    /\ str_leb lo hi = true
    /\ (lo = hi <-> forall t, In t (timestamps sample_features) -> t = lo).
Proof.
  apply (@earliest_not_after_latest (world_of sample_phenopacket) 0
           sample_features).
  - apply entries_present. reflexivity.
  - discriminate.
  - exact sample_features_str_timed.
Defined.

(** ** Further properties of the extractors *)

Section MoreExtractorFacts.

Variable container_repr : value -> str.

Lemma term_loop_unflagged (field : str) (items : list value) :
  Forall (fun x => flagged x = false) items ->
  forall acc, term_loop container_repr field true items acc
              = term_loop container_repr field false items acc.
Proof.
  induction 1 as [|x items Hx _ IH]; intros acc; [reflexivity|].
  cbn [term_loop].
  destruct (term_string_cases container_repr field x)
    as [(_ & Hs & Hg & Hfl) | (_ & e & He)].
  - rewrite Hs. cbn [obind]. rewrite Hg. cbn [obind]. rewrite Hfl, Hx.
    apply IH.
  - now rewrite He.
Qed.

(** The outcome of the loop and join on whatever is stored under the key. *)
Lemma strings_of_stored (field : str) (v : value) :
  (exists items,
      py_iter v = Return items /\ Forall (described field) items
      /\ forall ign,
          (xs <- py_iter v ;; term_loop container_repr field ign xs [])
          = Return (map (rendered container_repr field) (retained ign items)))
  \/ (exists e, forall ign,
         (xs <- py_iter v ;; term_loop container_repr field ign xs [])
         = Raise e).
Proof.
  destruct (py_iter v) as [items|e] eqn:Ei; [|right; now exists e].
  destruct (term_loop_cases container_repr field items) as [Hd | [e He]].
  - left. exists items. repeat split; try assumption.
    intros ign. cbn [obind].
    now rewrite (@term_loop_described container_repr field ign items [] Hd).
  - right. exists e. intros ign. cbn [obind]. apply He.
Qed.

(** X8: the disease extractor formats like the phenotype extractor: when
    [diseases] is a list of entries that have [term.id] and [term.label],
    it returns, without touching anything, the strings
    ["{term.id} - {term.label}"] of the diseases in their original order,
    an excluded one left out or tagged with [" (excluded)"] according to
    [ignore_excluded], with ["; "] before each but the first. *)
Theorem extract_disease_terms_formats
        (w : world) (p : loc) (ignore_excluded : bool) (ds : list value) :
  dict_lookup k_diseases (heap w p) = Some (VList ds) ->
  Forall (described k_term) ds ->
  extract_disease_terms_from_phenopacket container_repr p ignore_excluded w
  = (Return (joined (map (rendered container_repr k_term)
                         (retained ignore_excluded ds))), w).
Proof.
  intros Hf Hd.
  rewrite (@extract_disease_present container_repr w p ignore_excluded _ Hf).
  cbn [py_iter obind].
  rewrite (@term_loop_described container_repr k_term ignore_excluded ds [] Hd).
  cbn [app omap]. now rewrite join_joined.
Qed.

(** X9: when the [diseases] key is missing, the disease extractor returns
    the empty string and logs one warning that names [subject.id] if the
    record has one; if the record has no [subject], the lookup made for
    the warning raises [KeyError] and nothing is logged. *)
Theorem extract_disease_terms_without_diseases
        (w : world) (p : loc) (ignore_excluded : bool) :
  dict_lookup k_diseases (heap w p) = None ->
  (forall sid,
      at_path (VDict (heap w p)) [k_subject; k_id] = Some sid ->
      extract_disease_terms_from_phenopacket container_repr p ignore_excluded w
      = (Return [],
         {| heap := heap w;
            warnings := warnings w
                        ++ [lit "SAMS: No diseases found for "
                                ++ format_value container_repr sid] |}))
  /\ (dict_lookup k_subject (heap w p) = None ->
      extract_disease_terms_from_phenopacket container_repr p ignore_excluded w
      = (Raise (KeyError k_subject), w)).
Proof.
  intros Hn. split.
  - intros sid Hs.
    rewrite (@extract_disease_absent container_repr w p ignore_excluded Hn).
    now rewrite (@subject_id_at_path (heap w p) sid Hs).
  - intros Hs.
    rewrite (@extract_disease_absent container_repr w p ignore_excluded Hn).
    cbn [getitem]. now rewrite Hs.
Qed.

(** X10: whether an extractor raises, and what it raises, does not depend
    on [ignore_excluded]: an entry is formatted before its [excluded] flag
    is looked at, so an excluded entry that cannot be formatted makes the
    call fail even when excluded entries are to be ignored. *)
Theorem extract_error_independent_of_flag (w : world) (p : loc) (e : exn) :
  (fst (extract_HPO_terms_from_phenopacket container_repr p true w) = Raise e
   <-> fst (extract_HPO_terms_from_phenopacket container_repr p false w)
       = Raise e)
  /\ (fst (extract_disease_terms_from_phenopacket container_repr p true w)
      = Raise e
      <-> fst (extract_disease_terms_from_phenopacket container_repr p false w)
          = Raise e).
Proof.
  split.
  - destruct (dict_lookup k_phenotypicFeatures (heap w p)) as [v|] eqn:E.
    + rewrite !(@extract_HPO_present container_repr w p _ v E). cbn [fst].
      destruct (strings_of_stored k_type v) as [(items & _ & _ & H) | [e' H]];
        rewrite !H; cbn [omap]; split; congruence.
    + rewrite !(@extract_HPO_absent container_repr w p _ E). tauto.
  - destruct (dict_lookup k_diseases (heap w p)) as [v|] eqn:E.
    + rewrite !(@extract_disease_present container_repr w p _ v E). cbn [fst].
      destruct (strings_of_stored k_term v) as [(items & _ & _ & H) | [e' H]];
        rewrite !H; cbn [omap]; split; congruence.
    + rewrite !(@extract_disease_absent container_repr w p _ E). tauto.
Qed.

(** X11: when no feature of the list has a truthy [excluded], the flag
    [ignore_excluded] makes no difference at all: both settings give the
    same outcome and leave the same state. *)
Theorem extract_unflagged_same (w : world) (p : loc) (fs : list value) :
  dict_lookup k_phenotypicFeatures (heap w p) = Some (VList fs) ->
  Forall (fun x => flagged x = false) fs ->
  extract_HPO_terms_from_phenopacket container_repr p true w
  = extract_HPO_terms_from_phenopacket container_repr p false w.
Proof.
  intros Hf Hu.
  rewrite !(@extract_HPO_present container_repr w p _ _ Hf).
  cbn [py_iter obind]. now rewrite (term_loop_unflagged k_type Hu).
Qed.

(** X12: an extractor logs only on the path of a missing key, and then
    exactly one warning together with the empty string; on every other
    path, failures included, it leaves the state as it found it. *)
Theorem extract_logs_only_without_key (w : world) (p : loc) (ign : bool) :
  (snd (extract_HPO_terms_from_phenopacket container_repr p ign w) = w
   \/ (dict_lookup k_phenotypicFeatures (heap w p) = None
       /\ fst (extract_HPO_terms_from_phenopacket container_repr p ign w)
          = Return []
       /\ exists msg,
           snd (extract_HPO_terms_from_phenopacket container_repr p ign w)
           = {| heap := heap w; warnings := warnings w ++ [msg] |}))
  /\ (snd (extract_disease_terms_from_phenopacket container_repr p ign w) = w
      \/ (dict_lookup k_diseases (heap w p) = None
          /\ fst (extract_disease_terms_from_phenopacket container_repr p ign w)
             = Return []
          /\ exists msg,
              snd (extract_disease_terms_from_phenopacket container_repr p ign w)
              = {| heap := heap w; warnings := warnings w ++ [msg] |})).
Proof.
  split.
  - destruct (dict_lookup k_phenotypicFeatures (heap w p)) as [v|] eqn:E.
    + left. now rewrite (@extract_HPO_present container_repr w p ign v E).
    + rewrite (@extract_HPO_absent container_repr w p ign E).
      destruct (obind _ _) as [sid|e]; [right | now left].
      split; [reflexivity|]. split; [reflexivity|]. eexists. reflexivity.
  - destruct (dict_lookup k_diseases (heap w p)) as [v|] eqn:E.
    + left. now rewrite (@extract_disease_present container_repr w p ign v E).
    + rewrite (@extract_disease_absent container_repr w p ign E).
      destruct (obind _ _) as [sid|e]; [right | now left].
      split; [reflexivity|]. split; [reflexivity|]. eexists. reflexivity.
Qed.

(** X13: a [phenotypicFeatures] key bound to [null], a boolean or a number
    is not treated as a missing key: the phenotype extractor and the onset
    filter, whatever the selector, raise [TypeError] and change nothing. *)
Theorem features_must_be_iterable
        (w : world) (p : loc) (v : value) (ign : bool) (sel : str) :
  dict_lookup k_phenotypicFeatures (heap w p) = Some v ->
  not_iterable v = true ->
  extract_HPO_terms_from_phenopacket container_repr p ign w
  = (Raise TypeError, w)
  /\ filter_phenopacket_by_onset p sel w = (Raise TypeError, w).
Proof.
  intros Hf Hv.
  assert (py_iter v = Raise TypeError) as Hi by (now destruct v).
  split.
  - rewrite (@extract_HPO_present container_repr w p ign v Hf).
    now rewrite Hi.
  - unfold filter_phenopacket_by_onset, bind.
    destruct (is_sentinel sel) eqn:Hsel.
    + apply is_sentinel_cases in Hsel as [-> | ->];
        [rewrite compute_earliest | rewrite compute_latest];
        unfold dict_get; now rewrite Hf, Hi.
    + rewrite (@compute_literal p sel w Hsel).
      unfold deref, lift, dict_get. now rewrite Hf, Hi.
Qed.

(** X14: extracting after filtering lists exactly the features at the
    target: when the selector resolves to [target] on a record whose
    features have [onset.timestamp], [type.id] and [type.label], the
    phenotype extractor run on the filtered record returns the strings of
    the original features whose timestamp equals [target], in their
    original order, and logs nothing. *)
Theorem filter_then_extract
        (w : world) (p : loc) (sel : str) (target : value) (ign : bool)
        (fs ds : list value) :
  compute_onset_timestamp p sel w = (Return target, w) ->
  has_entries k_phenotypicFeatures (heap w p) fs ->
  has_entries k_diseases (heap w p) ds ->
  Forall timed fs -> Forall timed ds -> Forall (described k_type) fs ->
  exists w',
    filter_phenopacket_by_onset p sel w = (Return p, w')
    /\ extract_HPO_terms_from_phenopacket container_repr p ign w'
       = (Return (joined (map (rendered container_repr k_type)
                              (retained ign (filter (onset_is target) fs)))),
          w').
Proof.
  intros Hc Hf Hd Tf Td Df.
  destruct (@filter_run w p sel target fs ds Hc Hf Hd Tf Td)
    as (w' & Hrun & Hheap & _ & _).
  exists w'. split; [exact Hrun|].
  destruct (filter_lookups (heap w p)
              (VList (filter (onset_is target) fs))
              (VList (filter (onset_is target) ds))) as [HF _].
  rewrite <- Hheap in HF.
  rewrite (@extract_HPO_present container_repr w' p ign _ HF).
  cbn [py_iter obind].
  rewrite (@term_loop_described container_repr k_type ign _ []
             (Forall_filter (onset_is target) Df)).
  cbn [app omap]. now rewrite join_joined.
Qed.

(** X15: after a successful call of the filter, an extractor no longer
    takes the missing-key path: for a key that was missing before the
    filter ran, it returns the empty string without logging and without
    looking up [subject] (so it cannot raise [KeyError] either). *)
Theorem filter_then_extract_missing
        (w w1 : world) (p r : loc) (sel : str) (ign : bool) :
  filter_phenopacket_by_onset p sel w = (Return r, w1) ->
  (dict_lookup k_phenotypicFeatures (heap w p) = None ->
   extract_HPO_terms_from_phenopacket container_repr p ign w1 = (Return [], w1))
  /\ (dict_lookup k_diseases (heap w p) = None ->
      extract_disease_terms_from_phenopacket container_repr p ign w1
      = (Return [], w1)).
Proof.
  intros H. apply filter_success in H
    as (_ & fs' & ds' & Hheap & Hf & Hd & _ & _).
  destruct (filter_lookups (heap w p) (VList fs') (VList ds')) as [HF HD].
  rewrite <- Hheap in HF, HD. split; intros Hn.
  - rewrite (Hf Hn) in HF.
    now rewrite (@extract_HPO_present container_repr w1 p ign _ HF).
  - rewrite (Hd Hn) in HD.
    now rewrite (@extract_disease_present container_repr w1 p ign _ HD).
Qed.

End MoreExtractorFacts.

Lemma extract_disease_terms_formats_witness :
  extract_disease_terms_from_phenopacket no_repr 0 false
    (world_of sample_with_excluded_disease)
  = (Return (lit "OMIM:1 - Disease 1; OMIM:2 - Disease 2 (excluded)"),
     world_of sample_with_excluded_disease).
Proof.
  assert (dict_lookup k_diseases (heap (world_of sample_with_excluded_disease) 0)
          = Some (VList match dict_lookup k_diseases sample_with_excluded_disease with
                        | Some (VList ds) => ds
                        | _ => []
                        end)) as Hf by reflexivity.
  assert (Forall (described k_term)
                 match dict_lookup k_diseases sample_with_excluded_disease with
                 | Some (VList ds) => ds
                 | _ => []
                 end) as Hd
      by (repeat constructor; eexists; reflexivity).
  exact (@extract_disease_terms_formats no_repr _ 0 false _ Hf Hd).
Defined.

Lemma extract_disease_terms_without_diseases_witness :
  extract_disease_terms_from_phenopacket no_repr 0 true
    (world_of sample_without_features)
  = (Return [],
     {| heap := fun _ => sample_without_features;
        warnings := [lit "SAMS: No diseases found for p2"] |})
  /\ extract_disease_terms_from_phenopacket no_repr 0 true (world_of [])
     = (Raise (KeyError k_subject), world_of []).
Proof.
  split.
  - apply (proj1 (@extract_disease_terms_without_diseases no_repr
                    (world_of sample_without_features) 0 true eq_refl)
                 (text "p2")).
    reflexivity.
  - apply (proj2 (@extract_disease_terms_without_diseases no_repr
                    (world_of []) 0 true eq_refl)).
    reflexivity.
Defined.

Lemma extract_unflagged_same_witness :
  extract_HPO_terms_from_phenopacket no_repr 0 true (world_of sample_phenopacket)
  = extract_HPO_terms_from_phenopacket no_repr 0 false
      (world_of sample_phenopacket).
Proof.
  apply (@extract_unflagged_same no_repr (world_of sample_phenopacket) 0
           sample_features).
  - reflexivity.
  - repeat constructor.
Defined.

Lemma features_must_be_iterable_witness :
  extract_HPO_terms_from_phenopacket no_repr 0 true
    (world_of sample_null_features)
  = (Raise TypeError, world_of sample_null_features)
  /\ filter_phenopacket_by_onset 0 earliest (world_of sample_null_features)
     = (Raise TypeError, world_of sample_null_features).
Proof.
  apply (@features_must_be_iterable no_repr (world_of sample_null_features) 0
           VNone true earliest); reflexivity.
Defined.

Lemma filter_then_extract_witness :
  exists w',
    filter_phenopacket_by_onset 0 (lit "2020-01-01") (world_of sample_phenopacket)
    = (Return 0, w')
    /\ extract_HPO_terms_from_phenopacket no_repr 0 true w'
       = (Return (lit "HP:1 - A"), w').
Proof.
  exact (@filter_then_extract no_repr (world_of sample_phenopacket) 0
           (lit "2020-01-01") (text "2020-01-01") true
           sample_features sample_diseases
           eq_refl
           (@entries_present k_phenotypicFeatures sample_phenopacket
                             sample_features eq_refl)
           (@entries_present k_diseases sample_phenopacket
                             sample_diseases eq_refl)
           sample_features_timed sample_diseases_timed
           ltac:(repeat constructor; eexists; reflexivity)).
Defined.

Lemma filter_then_extract_missing_witness :
  extract_disease_terms_from_phenopacket no_repr 0 true
    (snd (filter_phenopacket_by_onset 0 (lit "2020-01-01")
            (world_of sample_without_diseases)))
  = (Return [],
     snd (filter_phenopacket_by_onset 0 (lit "2020-01-01")
            (world_of sample_without_diseases))).
Proof.
  apply (proj2 (@filter_then_extract_missing no_repr
                  (world_of sample_without_diseases) _ 0 0 (lit "2020-01-01")
                  true eq_refl)).
  reflexivity.
Defined.

(** ** Further properties of the client *)

Lemma translate_newlines_single_line (s rest : str) :
  single_line s = true ->
  translate_newlines (s ++ rest) = s ++ translate_newlines rest.
Proof.
  induction s as [|c s IH]; [reflexivity|].
  cbn [single_line forallb app translate_newlines]. intros H.
  apply andb_true_iff in H as [Hc Hs].
  apply andb_true_iff in Hc as [_ Hc]. apply negb_true_iff in Hc.
  rewrite Hc. f_equal. now apply IH.
Qed.

Lemma split_lines_single_line (s acc rest : str) :
  single_line s = true ->
  split_lines acc (s ++ 10%N :: rest)
  = (acc ++ s ++ [10%N]) :: split_lines [] rest.
Proof.
  revert acc; induction s as [|c s IH]; intros acc; [reflexivity|].
  cbn [single_line forallb app split_lines]. intros H.
  apply andb_true_iff in H as [Hc Hs].
  apply andb_true_iff in Hc as [Hc _]. apply negb_true_iff in Hc.
  rewrite Hc, IH by exact Hs. now rewrite <- app_assoc.
Qed.

Lemma split_lines_last (s acc : str) :
  single_line s = true ->
  split_lines acc s = match acc ++ s with [] => [] | _ => [acc ++ s] end.
Proof.
  revert acc; induction s as [|c s IH]; intros acc.
  - intros _. cbn [split_lines]. rewrite app_nil_r. reflexivity.
  - cbn [single_line forallb split_lines]. intros H.
    apply andb_true_iff in H as [Hc Hs].
    apply andb_true_iff in Hc as [Hc _]. apply negb_true_iff in Hc.
    rewrite Hc, IH by exact Hs. now rewrite <- app_assoc.
Qed.

Lemma readlines_credentials (eol u p : str) :
  eol = [10%N] \/ eol = [13%N; 10%N] ->
  single_line u = true -> single_line p = true ->
  readlines (credentials_text eol u p) = [u ++ [10%N]; p ++ [10%N]].
Proof.
  intros Heol Hu Hp. unfold readlines, credentials_text.
  assert (translate_newlines (u ++ eol ++ p ++ eol)
          = u ++ 10%N :: p ++ 10%N :: []) as ->.
  { rewrite translate_newlines_single_line by exact Hu.
    destruct Heol as [-> | ->]; cbn [app translate_newlines N.eqb Pos.eqb];
      rewrite translate_newlines_single_line by exact Hp; reflexivity. }
  rewrite split_lines_single_line by exact Hu.
  rewrite (@split_lines_single_line p [] [] Hp). reflexivity.
Qed.

Lemma subject_id_returns (r sid : value) :
  (s <- getitem r k_subject ;; getitem s k_id) = Return sid ->
  at_path r [k_subject; k_id] = Some sid.
Proof.
  destruct r as [| | | | |d]; try discriminate. cbn [getitem at_path].
  destruct (dict_lookup k_subject d) as [s|]; [|discriminate]. cbn [obind].
  destruct s as [| | | | |sd]; try discriminate. cbn [getitem].
  destruct (dict_lookup k_id sd); [|discriminate]. now intros [= ->].
Qed.

Lemma strip_line_feed (s : str) : strip (s ++ [10%N]) = strip s.
Proof.
  unfold strip, rstrip.
  assert (lstrip (rev (lstrip (s ++ [10%N]))) = lstrip (rev (lstrip s))) as ->;
    [|reflexivity].
  induction s as [|c s IH]; [reflexivity|].
  cbn [app lstrip]. destruct (isspace c) eqn:E; [exact IH|].
  change (c :: s ++ [10%N]) with ((c :: s) ++ [10%N]).
  rewrite rev_app_distr. reflexivity.
Qed.

Section MoreClientFacts.

Variable session_post : str -> list (str * str) -> M Session Response.
Variable session_get : str -> M Session Response.
Variable file_content : str -> outcome str.

(** X16: a credentials file written as user name, line ending, password,
    line ending, with [\n] or [\r\n] as the line ending and neither part
    containing a line break, logs in exactly like [login_with_username]
    with the two parts stripped; the line endings never reach the server. *)
Theorem credentials_file_round_trip
        (credentials_file eol username password : str) (self : SAMSapi) :
  eol = [10%N] \/ eol = [13%N; 10%N] ->
  single_line username = true -> single_line password = true ->
  file_content credentials_file
  = Return (credentials_text eol username password) ->
  login_with_credentials_file session_post file_content credentials_file self
  = login_with_username session_post (strip username) (strip password) self.
Proof.
  intros Heol Hu Hp Hfile.
  unfold login_with_credentials_file, login_with_username, bind, lift.
  rewrite Hfile. cbn [obind].
  rewrite (@readlines_credentials eol username password Heol Hu Hp).
  cbn [map unpack2 fst snd]. now rewrite !strip_line_feed.
Qed.

(** X17: the final line ending may be left out only if the password is not
    empty: user name, [\n], password logs in like [login_with_username]
    when the password has at least one character, and raises [ValueError]
    before any request when it has none, since the file then has one line. *)
Theorem credentials_file_without_final_newline
        (credentials_file username password : str) (self : SAMSapi) :
  single_line username = true -> single_line password = true ->
  file_content credentials_file = Return (username ++ [10%N] ++ password) ->
  (password <> [] ->
   login_with_credentials_file session_post file_content credentials_file self
   = login_with_username session_post (strip username) (strip password) self)
  /\ (password = [] ->
      login_with_credentials_file session_post file_content credentials_file self
      = (Raise ValueError, self)).
Proof.
  intros Hu Hp Hfile.
  assert (readlines (username ++ [10%N] ++ password)
          = (username ++ [10%N])
              :: match password with [] => [] | _ => [password] end) as Hl.
  { unfold readlines.
    rewrite translate_newlines_single_line by exact Hu.
    cbn [app translate_newlines N.eqb Pos.eqb].
    rewrite <- (app_nil_r password) at 1.
    rewrite translate_newlines_single_line by exact Hp.
    cbn [translate_newlines]. rewrite app_nil_r.
    rewrite split_lines_single_line by exact Hu.
    now rewrite (@split_lines_last password [] Hp). }
  unfold login_with_credentials_file, login_with_username, bind, lift.
  rewrite Hfile. cbn [obind]. rewrite Hl. split.
  - intros Hne. destruct password as [|c rest]; [congruence|].
    cbn [map unpack2 fst snd]. now rewrite strip_line_feed.
  - intros ->. reflexivity.
Qed.


(** X19: the by-id fetch never hands out anything but a checked record: if
    it returns [r], then the request was answered with a status outside
    400..599, [r] is the parsed body, and [r.subject.id] is the requested
    id. *)
Theorem get_phenopacket_returns_checked
        (patient_id : str) (self : SAMSapi) (r : value) :
  fst (get_phenopacket session_get patient_id self) = Return r ->
  exists resp s',
    session_get (EXPORT_PHENOPACKET_BY_ID_URL patient_id) (session self)
    = (Return resp, s')
    /\ error_status resp = false
    /\ json resp = Return r
    /\ at_path r [k_subject; k_id] = Some (VStr patient_id).
Proof.
  unfold get_phenopacket, bind, on_session, error_status.
  destruct (session_get _ (session self)) as [[resp|e] s'];
    [|discriminate].
  unfold raise_for_status.
  destruct (N.leb 400 (status_code resp) && N.ltb (status_code resp) 600)
           eqn:Est; unfold raise, ret, lift; [discriminate|].
  destruct (json resp) as [record|e] eqn:Ej; [|discriminate].
  destruct (obind (getitem record k_subject) _) as [sid|e] eqn:Es;
    [|discriminate].
  unfold py_ne. destruct (py_eq sid (VStr patient_id)) eqn:E;
    cbn [negb fst]; [|discriminate].
  intros [= <-]. apply py_eq_str in E. subst sid.
  exists resp, s'. split; [reflexivity|]. split; [exact Est|].
  split; [exact Ej | now apply subject_id_returns].
Qed.

(** X20: a body that parses but is not a record with [subject.id] makes
    the by-id fetch fail on the lookup, before any comparison: a body that
    is not an object raises [TypeError], an object without [subject]
    raises [KeyError] for [subject], and a [subject] object without [id]
    raises [KeyError] for [id]. *)
Theorem get_phenopacket_malformed_body
        (patient_id : str) (self : SAMSapi) (resp : Response) (s' : Session)
        (body : value) :
  session_get (EXPORT_PHENOPACKET_BY_ID_URL patient_id) (session self)
  = (Return resp, s') ->
  error_status resp = false ->
  json resp = Return body ->
  ((forall d, body <> VDict d) ->
   fst (get_phenopacket session_get patient_id self) = Raise TypeError)
  /\ (forall d, body = VDict d -> dict_lookup k_subject d = None ->
      fst (get_phenopacket session_get patient_id self)
      = Raise (KeyError k_subject))
  /\ (forall d sd, body = VDict d ->
      dict_lookup k_subject d = Some (VDict sd) ->
      dict_lookup k_id sd = None ->
      fst (get_phenopacket session_get patient_id self)
      = Raise (KeyError k_id)).
Proof.
  intros Hget Hok Hjson. unfold error_status in Hok.
  unfold get_phenopacket, bind, on_session. rewrite Hget.
  unfold raise_for_status. rewrite Hok. unfold ret, lift. rewrite Hjson.
  repeat split.
  - intros Hnd. destruct body; try reflexivity. now contradiction (Hnd d).
  - intros d -> Hs. cbn [getitem]. now rewrite Hs.
  - intros d sd -> Hs Hi. cbn [getitem]. rewrite Hs. cbn [obind getitem].
    now rewrite Hi.
Qed.

(** X21: the bulk fetch returns [v] exactly when the request was answered
    with a status outside 400..599 and a body that parses to [v]; the body
    is returned as parsed, whatever its shape. *)
Theorem get_phenopackets_returns_body (self : SAMSapi) (v : value) :
  fst (get_phenopackets session_get self) = Return v
  <-> exists resp s',
      session_get EXPORT_PHENOPACKETS_URL (session self) = (Return resp, s')
      /\ error_status resp = false
      /\ json resp = Return v.
Proof.
  unfold get_phenopackets, bind, on_session, error_status.
  destruct (session_get _ (session self)) as [[resp|e] s'].
  - unfold raise_for_status.
    destruct (N.leb 400 (status_code resp) && N.ltb (status_code resp) 600)
             eqn:Est; unfold raise, ret, lift.
    + split; [discriminate|].
      intros (resp' & s'' & [= <- <-] & Hok & _). congruence.
    + destruct (json resp) as [body|e] eqn:Ej; cbn [fst].
      * split.
        -- intros [= <-]. now exists resp, s'.
        -- intros (resp' & s'' & [= <- <-] & _ & Hj). congruence.
      * split; [discriminate|].
        intros (resp' & s'' & [= <- <-] & _ & Hj). congruence.
  - split; [discriminate|]. now intros (resp' & s'' & [= ] & _).
Qed.

(** X22: no operation of the client ever writes the [phenopackets] field:
    whatever the server answers and whether the call succeeds or fails,
    the field is afterwards what it was before (nothing is cached). *)
Theorem client_never_caches
        (self : SAMSapi) (username password path patient_id : str) :
  phenopackets (snd (login_with_username session_post username password self))
  = phenopackets self
  /\ phenopackets
       (snd (login_with_credentials_file session_post file_content path self))
     = phenopackets self
  /\ phenopackets (snd (get_phenopackets session_get self)) = phenopackets self
  /\ phenopackets (snd (get_phenopacket session_get patient_id self))
     = phenopackets self.
Proof.
  assert (forall u p, phenopackets (snd (_login session_post u p self))
                      = phenopackets self) as Hlogin.
  { intros u p. unfold _login, bind, on_session, raise_for_status.
    destruct (session_post _ _ (session self)) as [[resp|e] s'];
      [|reflexivity].
    now destruct (N.leb 400 (status_code resp) && N.ltb (status_code resp) 600). }
  repeat split.
  - apply Hlogin.
  - unfold login_with_credentials_file, bind, lift.
    destruct (obind (file_content path) _) as [up|e]; [apply Hlogin|reflexivity].
  - unfold get_phenopackets, bind, on_session, raise_for_status.
    destruct (session_get _ (session self)) as [[resp|e] s']; [|reflexivity].
    destruct (N.leb 400 (status_code resp) && N.ltb (status_code resp) 600);
      [reflexivity|].
    unfold ret, lift. now destruct (json resp).
  - unfold get_phenopacket, bind, on_session, raise_for_status.
    destruct (session_get _ (session self)) as [[resp|e] s']; [|reflexivity].
    destruct (N.leb 400 (status_code resp) && N.ltb (status_code resp) 600);
      [reflexivity|].
    unfold ret, lift. destruct (json resp) as [record|e]; [|reflexivity].
    destruct (obind (getitem record k_subject) _) as [sid|e]; [|reflexivity].
    now destruct (py_ne sid (VStr patient_id)).
Qed.

End MoreClientFacts.

Lemma credentials_file_round_trip_witness :
  login_with_credentials_file (fun _ _ => answering VNone)
                              (fun _ => Return two_lines) [] anonymous
  = login_with_username (fun _ _ => answering VNone)
                        (lit "user") (lit "pass") anonymous.
Proof.
  apply (@credentials_file_round_trip
           (fun _ _ => answering VNone) (fun _ => Return two_lines)
           [] [10%N] (lit "user") (lit " pass ") anonymous).
  - now left.
  - reflexivity.
  - reflexivity.
  - reflexivity.
Defined.

Lemma credentials_file_without_final_newline_witness :
  login_with_credentials_file
    (fun _ _ => answering VNone)
    (fun _ => Return (lit "user" ++ [10%N] ++ lit "pass")) [] anonymous
  = login_with_username (fun _ _ => answering VNone)
                        (lit "user") (lit "pass") anonymous.
Proof.
  apply (proj1 (@credentials_file_without_final_newline
                  (fun _ _ => answering VNone)
                  (fun _ => Return (lit "user" ++ [10%N] ++ lit "pass"))
                  [] (lit "user") (lit "pass") anonymous
                  eq_refl eq_refl eq_refl)).
  discriminate.
Defined.


Lemma get_phenopacket_returns_checked_witness :
  exists resp s',
    answering (VDict [(k_subject, VDict [(k_id, text "patient1")])])
              (session anonymous)
    = (Return resp, s')
    /\ error_status resp = false
    /\ json resp = Return (VDict [(k_subject, VDict [(k_id, text "patient1")])])
    /\ at_path (VDict [(k_subject, VDict [(k_id, text "patient1")])])
               [k_subject; k_id]
       = Some (VStr (lit "patient1")).
Proof.
  apply (@get_phenopacket_returns_checked
           (fun _ => answering (VDict [(k_subject, VDict [(k_id, text "patient1")])]))
           (lit "patient1") anonymous).
  reflexivity.
Defined.

Lemma get_phenopacket_malformed_body_witness :
  fst (get_phenopacket (fun _ => answering (VList [])) (lit "patient1") anonymous)
  = Raise TypeError.
Proof.
  apply (proj1 (@get_phenopacket_malformed_body
                  (fun _ => answering (VList [])) (lit "patient1") anonymous
                  {| status_code := 200; json := Return (VList []) |}
                  {| cookies := [] |} (VList [])
                  eq_refl eq_refl eq_refl)).
  discriminate.
Defined.
